(** * 28chain.py: a ticket ledger on a single-node proof-of-work chain

    A shallow embedding of [src/28chain.py]: the [Transaction], [Block] and
    [Blockchain] classes, the Flask route handlers that drive them, and the
    two library calls the hashes go through, [json.dumps(..., sort_keys=True)]
    and [hashlib.sha256(...).hexdigest()].

    Conventions.
    - The module-level [blockchain] object is the state every handler
      threads: a handler is a function from the state to a response and the
      next state.
    - [time.time()] and [uuid.uuid4()] are inputs of the operation that
      calls them.
    - The [while] loop of [proof_of_work] has no bound in the source; here it
      runs on fuel and [None] stands for "still searching". *)

From Stdlib Require Import ZArith List String Ascii Lia Permutation DecimalString.
From stdpp Require Import gmap strings.
Import ListNotations.

Set Warnings "-register-all".

Local Open Scope Z_scope.

(** ** hashlib.sha256 (FIPS 180-4), on 32-bit words carried as [Z] *)

Module SHA256.

Definition mask32 : Z := 0xffffffff.

(** Truncation to the low 32 bits *)
Definition wrap (x : Z) : Z := Z.land x mask32.

Definition add32 (x y : Z) : Z := wrap (x + y).

Definition rotr (n x : Z) : Z :=
  Z.lor (Z.shiftr x n) (wrap (Z.shiftl x (32 - n))).

Definition shr (n x : Z) : Z := Z.shiftr x n.

Definition not32 (x : Z) : Z := Z.lxor x mask32.

Definition Ch (x y z : Z) : Z := Z.lxor (Z.land x y) (Z.land (not32 x) z).

Definition Maj (x y z : Z) : Z :=
  Z.lxor (Z.lxor (Z.land x y) (Z.land x z)) (Z.land y z).

Definition bsig0 (x : Z) : Z := Z.lxor (Z.lxor (rotr 2 x) (rotr 13 x)) (rotr 22 x).
Definition bsig1 (x : Z) : Z := Z.lxor (Z.lxor (rotr 6 x) (rotr 11 x)) (rotr 25 x).
Definition ssig0 (x : Z) : Z := Z.lxor (Z.lxor (rotr 7 x) (rotr 18 x)) (shr 3 x).
Definition ssig1 (x : Z) : Z := Z.lxor (Z.lxor (rotr 17 x) (rotr 19 x)) (shr 10 x).

(** The round constants and the initial hash value are, as the standard
    defines them, the first 32 bits of the fractional parts of the cube roots
    of the first 64 primes and of the square roots of the first 8. *)
Definition is_prime (p : Z) : bool :=
  forallb (fun d => negb (p mod d =? 0)) (map Z.of_nat (seq 2 (Z.to_nat p - 2))).

Definition primes : list Z := List.filter is_prime (map Z.of_nat (seq 2 310)).

(** The integer cube root, one bit at a time from bit [bits - 1] down. *)
Fixpoint cube_root_bits (bits : nat) (n acc : Z) : Z :=
  match bits with
  | O => acc
  | S b =>
      let c := acc + 2 ^ Z.of_nat b in
      cube_root_bits b n (if c * c * c <=? n then c else acc)
  end.

Definition frac_cube_root (p : Z) : Z := wrap (cube_root_bits 40 (p * 2 ^ 96) 0).

Definition frac_sqrt (p : Z) : Z := wrap (Z.sqrt (p * 2 ^ 64)).

Definition K : list Z := Eval vm_compute in map frac_cube_root primes.

(** Big-endian bytes of [x], [n] of them. *)
Fixpoint be_bytes (n : nat) (x : Z) : list Z :=
  match n with
  | O => []
  | S n' => be_bytes n' (Z.shiftr x 8) ++ [x mod 256]
  end.

(** The message followed by 0x80, zero bytes up to 56 mod 64, and the bit
    length on 8 bytes. *)
Definition pad (msg : list Z) : list Z :=
  let len := Z.of_nat (List.length msg) in
  let k := (55 - len) mod 64 in
  msg ++ [0x80] ++ repeat 0 (Z.to_nat k) ++ be_bytes 8 (8 * len).

Fixpoint words_of_bytes (bs : list Z) : list Z :=
  match bs with
  | b0 :: b1 :: b2 :: b3 :: rest =>
      (((b0 * 256 + b1) * 256 + b2) * 256 + b3) :: words_of_bytes rest
  | _ => []
  end.

(** The message schedule, kept newest word first while it grows. *)
Fixpoint extend (n : nat) (rw : list Z) : list Z :=
  match n with
  | O => rw
  | S n' =>
      let w := add32 (add32 (add32 (ssig1 (nth 1 rw 0)) (nth 6 rw 0))
                            (ssig0 (nth 14 rw 0))) (nth 15 rw 0) in
      extend n' (w :: rw)
  end.

Definition schedule (m : list Z) : list Z := rev (extend 48 (rev m)).

Record regs := Regs { ra : Z; rb : Z; rc : Z; rd : Z; re : Z; rf : Z; rg : Z; rh : Z }.

Definition round (r : regs) (kw : Z * Z) : regs :=
  let '(k, w) := kw in
  let t1 := add32 (add32 (add32 (add32 (rh r) (bsig1 (re r)))
                                (Ch (re r) (rf r) (rg r))) k) w in
  let t2 := add32 (bsig0 (ra r)) (Maj (ra r) (rb r) (rc r)) in
  Regs (add32 t1 t2) (ra r) (rb r) (rc r) (add32 (rd r) t1) (re r) (rf r) (rg r).

Definition compress (h : regs) (m : list Z) : regs :=
  let r := fold_left round (combine K (schedule m)) h in
  Regs (add32 (ra h) (ra r)) (add32 (rb h) (rb r)) (add32 (rc h) (rc r))
       (add32 (rd h) (rd r)) (add32 (re h) (re r)) (add32 (rf h) (rf r))
       (add32 (rg h) (rg r)) (add32 (rh h) (rh r)).

(** One compression per 16-word block; [n] counts the blocks left. *)
Fixpoint blocks (n : nat) (h : regs) (ws : list Z) : regs :=
  match n with
  | O => h
  | S n' => blocks n' (compress h (firstn 16 ws)) (skipn 16 ws)
  end.

Definition init : regs :=
  Eval vm_compute in
    Regs (frac_sqrt 2) (frac_sqrt 3) (frac_sqrt 5) (frac_sqrt 7)
         (frac_sqrt 11) (frac_sqrt 13) (frac_sqrt 17) (frac_sqrt 19).

Definition digest (msg : list Z) : list Z :=
  let ws := words_of_bytes (pad msg) in
  let r := blocks (List.length ws / 16) init ws in
  [ra r; rb r; rc r; rd r; re r; rf r; rg r; rh r].

Definition hex_digit (n : Z) : ascii :=
  nth (Z.to_nat (n mod 16)) (list_ascii_of_string "0123456789abcdef") "0"%char.

(** [n] lowercase hex digits of [x], most significant first. *)
Fixpoint hex_of (n : nat) (x : Z) : list ascii :=
  match n with
  | O => []
  | S n' => hex_of n' (Z.shiftr x 4) ++ [hex_digit x]
  end.

Definition bytes_of_string (s : string) : list Z :=
  map (fun c => Z.of_N (N_of_ascii c)) (list_ascii_of_string s).

(** [hashlib.sha256(s.encode()).hexdigest()] for an ASCII [s]. *)
Definition hexdigest (s : string) : string :=
  string_of_list_ascii (flat_map (hex_of 8) (digest (bytes_of_string s))).

End SHA256.

(** ** Python values and json.dumps(..., sort_keys=True) *)

Local Open Scope string_scope.

(** A Python [str] is a [string] whose characters are code points below 256.
    A Python [float] is carried by its [repr], the shortest decimal literal
    that reads back as the same float: [repr] is injective on floats and it is
    the only thing [json.dumps] reads of one. *)
Record pyfloat : Type := PyFloat { float_repr : string }.

Inductive json : Type :=
  | JNull
  | JBool (b : bool)
  | JInt (n : Z)
  | JFloat (f : pyfloat)
  | JStr (s : string)
  | JList (l : list json)
  | JDict (d : list (string * json)).

(** A [dict] with [str] keys, in insertion order. Every dict the program
    builds comes from a literal with distinct keys. *)
Abbreviation dict := (list (string * json)).

(** [d.get(k)]: [None] when the key is absent. *)
Fixpoint dict_get (d : dict) (k : string) : option json :=
  match d with
  | [] => None
  | (k', v) :: d' => if String.eqb k' k then Some v else dict_get d' k
  end.

(** [v == s] for the result [v] of a [get] and a [str] [s]. *)
Definition py_eq_str (v : option json) (s : string) : bool :=
  match v with
  | Some (JStr s') => String.eqb s' s
  | _ => false
  end.

(** [s * n] *)
Definition str_mul (s : string) (n : Z) : string :=
  String.concat "" (repeat s (Z.to_nat n)).

(** [s.startswith(p)] *)
Definition startswith (s p : string) : bool := String.prefix p s.

Module Json.

Definition dquote : ascii := "034"%char.
Definition backslash : ascii := "092"%char.

(** [repr] of an [int] *)
Definition int_repr (n : Z) : string := NilZero.string_of_int (Z.to_int n).

(** The escape of one character under [ensure_ascii=True]: the short
    escapes, then [\u00xx] for whatever is outside [' '..'~']. *)
Definition escape_char (c : ascii) : string :=
  let n := Z.of_N (N_of_ascii c) in
  if Ascii.eqb c dquote then String backslash (String dquote "")
  else if Ascii.eqb c backslash then String backslash (String backslash "")
  else if (n =? 10)%Z then String backslash "n"
  else if (n =? 13)%Z then String backslash "r"
  else if (n =? 9)%Z then String backslash "t"
  else if (n =? 12)%Z then String backslash "f"
  else if (n =? 8)%Z then String backslash "b"
  else if ((32 <=? n) && (n <=? 126))%Z then String c ""
  else String backslash ("u" ++ string_of_list_ascii (SHA256.hex_of 4 n)).

Definition encode_basestring_ascii (s : string) : string :=
  String dquote
    (String.concat "" (map escape_char (list_ascii_of_string s))
     ++ String dquote "").

(** Insertion before the first item whose key is not smaller: the sort is
    stable, as Python's is. *)
Fixpoint insert_item {A : Type} (x : string * A) (l : list (string * A))
  : list (string * A) :=
  match l with
  | [] => [x]
  | y :: l' =>
      if String.leb (fst x) (fst y) then x :: y :: l'
      else y :: insert_item x l'
  end.

(** [sorted(d.items())], the keys being distinct *)
Definition sort_items {A : Type} (l : list (string * A)) : list (string * A) :=
  fold_right insert_item [] l.

Definition dump_item (kv : string * string) : string :=
  encode_basestring_ascii (fst kv) ++ ": " ++ snd kv.

(** [json.dumps(v, sort_keys=True)] with the default separators. The values
    of a dict are written before the items are sorted, which gives the same
    text since the order looks at keys only. *)
Fixpoint dumps (v : json) : string :=
  match v with
  | JNull => "null"
  | JBool true => "true"
  | JBool false => "false"
  | JInt n => int_repr n
  | JFloat f => float_repr f
  | JStr s => encode_basestring_ascii s
  | JList l => "[" ++ String.concat ", " (map dumps l) ++ "]"
  | JDict d =>
      "{" ++ String.concat ", "
               (map dump_item
                  (sort_items
                     (map (fun kv => match kv with (k, x) => (k, dumps x) end) d)))
          ++ "}"
  end.

End Json.

(** ** class Transaction *)

Module Transaction.

Record t : Type := Build {
  tx_type : string;
  data : dict;
  sender_pubkey : json;
  signature : json;
  timestamp : pyfloat
}.

(** [Transaction(tx_type, data, sender_pubkey, signature)], [now] being what
    [time.time()] returns. *)
Definition init (tx_type : string) (data : dict) (sender_pubkey signature : json)
    (now : pyfloat) : t :=
  Build tx_type data sender_pubkey signature now.

Definition to_dict (self : t) : dict :=
  [ ("tx_type", JStr (tx_type self));
    ("data", JDict (data self));
    ("sender_pubkey", sender_pubkey self);
    ("signature", signature self);
    ("timestamp", JFloat (timestamp self)) ].

Definition compute_hash (self : t) : string :=
  SHA256.hexdigest (Json.dumps (JDict (to_dict self))).

End Transaction.

(** ** class Block *)

Module Block.

(** [hash] is not set by [__init__]: it is [None] until the chain assigns
    the attribute. *)
Record t : Type := Build {
  index : Z;
  transactions : list Transaction.t;
  timestamp : pyfloat;
  prev_hash : string;
  nonce : Z;
  hash : option string
}.

(** [Block(index, transactions, prev_hash)] with the default [nonce=0] *)
Definition init (index : Z) (transactions : list Transaction.t)
    (prev_hash : string) (now : pyfloat) : t :=
  Build index transactions now prev_hash 0 None.

(** [block.nonce = n] *)
Definition set_nonce (n : Z) (self : t) : t :=
  Build (index self) (transactions self) (timestamp self) (prev_hash self)
        n (hash self).

(** [block.hash = h] *)
Definition set_hash (h : string) (self : t) : t :=
  Build (index self) (transactions self) (timestamp self) (prev_hash self)
        (nonce self) (Some h).

Definition compute_hash (self : t) : string :=
  let block_string :=
    Json.dumps (JDict
      [ ("index", JInt (index self));
        ("transactions",
           JList (map (fun t => JDict (Transaction.to_dict t)) (transactions self)));
        ("timestamp", JFloat (timestamp self));
        ("prev_hash", JStr (prev_hash self));
        ("nonce", JInt (nonce self)) ]) in
  SHA256.hexdigest block_string.

End Block.

(** ** class Blockchain *)

(** How a call ends: it returns, it raises, or the fuel of the mining loop
    ran out before it did either. *)
Inductive exn : Type := IndexError | AttributeError.

Inductive completion (A : Type) : Type :=
  | Returned (a : A)
  | Raised (e : exn)
  | OutOfFuel.

Arguments Returned {A} a.
Arguments Raised {A} e.
Arguments OutOfFuel {A}.

(** An entry of [self.tickets]: the dict [{"owner": ..., "status": ...}]. *)
Record ticket : Type := Ticket { owner : json; status : string }.

Module Blockchain.

Definition difficulty : Z := 2.

Record t : Type := Build {
  chain : list Block.t;
  pending_transactions : list Transaction.t;
  tickets : gmap string ticket
}.

(** The genesis block appended to [self.chain] *)
Definition create_genesis_block (now : pyfloat) (self : t) : t :=
  let genesis_block := Block.init 0 [] "0" now in
  let genesis_block := Block.set_hash (Block.compute_hash genesis_block) genesis_block in
  Build (chain self ++ [genesis_block]) (pending_transactions self) (tickets self).

(** [Blockchain()] *)
Definition init (now : pyfloat) : t :=
  let self := Build [] [] ∅ in
  let self := create_genesis_block now self in
  Build (chain self) (pending_transactions self) ∅.

Definition add_transaction (transaction : Transaction.t) (self : t) : t :=
  Build (chain self) (pending_transactions self ++ [transaction]) (tickets self).

(** The [while] loop of [proof_of_work], entered with [computed_hash] the
    hash of [block]. *)
Fixpoint proof_of_work_loop (fuel : nat) (block : Block.t) (computed_hash : string)
  : option (string * Block.t) :=
  if startswith computed_hash (str_mul "0" difficulty) then
    Some (computed_hash, block)
  else
    match fuel with
    | O => None
    | S fuel' =>
        let block := Block.set_nonce (Block.nonce block + 1) block in
        proof_of_work_loop fuel' block (Block.compute_hash block)
    end.

(** The returned hash, and the block as the search leaves it. *)
Definition proof_of_work (fuel : nat) (block : Block.t) : option (string * Block.t) :=
  let block := Block.set_nonce 0 block in
  proof_of_work_loop fuel block (Block.compute_hash block).

(** What [mine] returns: [False], or the new block. *)
Inductive mined : Type :=
  | MinedFalse
  | MinedBlock (new_block : Block.t).

(** [new_block] takes the pending list object itself; the buffer is then
    rebound to a new empty list, so a later [add_transaction] does not reach
    the transactions of the block. *)
Definition mine (fuel : nat) (now : pyfloat) (self : t) : completion (mined * t) :=
  match pending_transactions self with
  | [] => Returned (MinedFalse, self)
  | _ :: _ =>
      match last (chain self) with
      | None => Raised IndexError
      | Some tip =>
          let new_block :=
            Block.init (Z.of_nat (length (chain self))) (pending_transactions self)
                       (Block.compute_hash tip) now in
          match proof_of_work fuel new_block with
          | None => OutOfFuel
          | Some (proof, new_block) =>
              let new_block := Block.set_hash proof new_block in
              Returned (MinedBlock new_block,
                        Build (chain self ++ [new_block]) [] (tickets self))
          end
      end
  end.

Definition verify_ticket (ticket_id : string) (self : t) : option ticket :=
  tickets self !! ticket_id.

Definition record_ticket (ticket_id : string) (owner : json) (status : string)
    (self : t) : t :=
  Build (chain self) (pending_transactions self)
        (<[ticket_id := Ticket owner status]> (tickets self)).

End Blockchain.

(** ** The Flask routes

    A response is the pair the handler returns: the body given to [jsonify]
    and the status code. [data[k]] for a key the handler requires is an
    argument of the handler, [data.get(k)] is an argument that is [JNull]
    when the key is absent, and a ticket id is a [str]. *)

Abbreviation response := (json * Z)%type.

Definition block_transactions (block : Block.t) : json :=
  JList (map (fun t => JDict (Transaction.to_dict t)) (Block.transactions block)).

Definition get_chain (blockchain : Blockchain.t) : response :=
  let chain_data :=
    map (fun block =>
           JDict [ ("index", JInt (Block.index block));
                   ("transactions", block_transactions block);
                   ("timestamp", JFloat (Block.timestamp block));
                   ("prev_hash", JStr (Block.prev_hash block));
                   ("hash", JStr (Block.compute_hash block)) ])
        (Blockchain.chain blockchain) in
  (JList chain_data, 200).

(** [block.hash] is an attribute that [Blockchain.mine] has set on every
    block it returns; reading it from a block without one would raise. *)
Definition mine (fuel : nat) (now : pyfloat) (blockchain : Blockchain.t)
  : completion (response * Blockchain.t) :=
  match Blockchain.mine fuel now blockchain with
  | OutOfFuel => OutOfFuel
  | Raised e => Raised e
  | Returned (Blockchain.MinedFalse, blockchain) =>
      Returned ((JDict [("message", JStr "No transactions to mine")], 200), blockchain)
  | Returned (Blockchain.MinedBlock block, blockchain) =>
      match Block.hash block with
      | None => Raised AttributeError
      | Some h =>
          Returned ((JDict [ ("index", JInt (Block.index block));
                             ("transactions", block_transactions block);
                             ("hash", JStr h) ], 200), blockchain)
      end
  end.

(** [ticket_id] is the [str(uuid.uuid4())] of the call. *)
Definition issue_ticket (event owner price issuer_pubkey issuer_signature : json)
    (ticket_id : string) (now : pyfloat) (blockchain : Blockchain.t)
  : response * Blockchain.t :=
  let tx :=
    Transaction.init "issue"
      [ ("ticket_id", JStr ticket_id);
        ("event", event);
        ("owner", owner);
        ("price", price) ]
      issuer_pubkey issuer_signature now in
  let blockchain := Blockchain.add_transaction tx blockchain in
  let blockchain := Blockchain.record_ticket ticket_id owner "valid" blockchain in
  ((JDict [("message", JStr "Ticket issued"); ("ticket_id", JStr ticket_id)], 201),
   blockchain).

(** In both guarded handlers [not ticket or ticket["status"] != "valid"] is
    read off the result of [verify_ticket]: a registry entry is a dict of two
    keys, so [not ticket] holds of [None] only. *)
Definition transfer_ticket (ticket_id : string) (new_owner sender_pubkey signature : json)
    (now : pyfloat) (blockchain : Blockchain.t) : response * Blockchain.t :=
  match Blockchain.verify_ticket ticket_id blockchain with
  | Some ticket =>
      if negb (String.eqb (status ticket) "valid") then
        ((JDict [("error", JStr "Invalid ticket")], 400), blockchain)
      else
        let tx :=
          Transaction.init "transfer"
            [ ("ticket_id", JStr ticket_id); ("new_owner", new_owner) ]
            sender_pubkey signature now in
        let blockchain := Blockchain.add_transaction tx blockchain in
        let blockchain :=
          Blockchain.record_ticket ticket_id new_owner "valid" blockchain in
        ((JDict [("message", JStr "Ticket transferred")], 200), blockchain)
  | None =>
      ((JDict [("error", JStr "Invalid ticket")], 400), blockchain)
  end.

Definition redeem_ticket (ticket_id : string) (sender_pubkey signature : json)
    (now : pyfloat) (blockchain : Blockchain.t) : response * Blockchain.t :=
  match Blockchain.verify_ticket ticket_id blockchain with
  | Some ticket =>
      if negb (String.eqb (status ticket) "valid") then
        ((JDict [("error", JStr "Invalid or already redeemed ticket")], 400), blockchain)
      else
        let tx :=
          Transaction.init "redeem" [ ("ticket_id", JStr ticket_id) ]
            sender_pubkey signature now in
        let blockchain := Blockchain.add_transaction tx blockchain in
        let blockchain :=
          Blockchain.record_ticket ticket_id (owner ticket) "redeemed" blockchain in
        ((JDict [("message", JStr "Ticket redeemed")], 200), blockchain)
  | None =>
      ((JDict [("error", JStr "Invalid or already redeemed ticket")], 400), blockchain)
  end.

(** [t.data.get("ticket_id") == ticket_id] *)
Definition mentions (ticket_id : string) (t : Transaction.t) : bool :=
  py_eq_str (dict_get (Transaction.data t) "ticket_id") ticket_id.

(** The inner [for] loop of [ticket_history], over one block *)
Definition history_of_block (ticket_id : string) (block : Block.t) : list json :=
  map (fun t => JDict (Transaction.to_dict t))
      (List.filter (mentions ticket_id) (Block.transactions block)).

Definition ticket_history (ticket_id : string) (blockchain : Blockchain.t) : response :=
  let history := flat_map (history_of_block ticket_id) (Blockchain.chain blockchain) in
  (JList history, 200).

Definition ticket_json (ticket : ticket) : json :=
  JDict [("owner", owner ticket); ("status", JStr (status ticket))].

Definition verify (ticket_id : string) (blockchain : Blockchain.t) : response :=
  match Blockchain.verify_ticket ticket_id blockchain with
  | None =>
      (JDict [("valid", JBool false); ("message", JStr "Ticket not found")], 404)
  | Some ticket =>
      (JDict [ ("valid", JBool (String.eqb (status ticket) "valid"));
               ("ticket", ticket_json ticket) ], 200)
  end.

(** ** Runs of the service

    One request to a mutating route takes the chain from one state to the
    next. [uuid.uuid4()] gives an identifier that no ticket carries yet, which
    is the premise of [step_issue]. A [/mine] request that raises or is still
    searching has not touched the chain, so only a returning one is a step. *)

Inductive step : Blockchain.t -> Blockchain.t -> Prop :=
  | step_issue event owner price issuer_pubkey issuer_signature ticket_id now s :
      Blockchain.tickets s !! ticket_id = None ->
      step s (snd (issue_ticket event owner price issuer_pubkey issuer_signature
                                ticket_id now s))
  | step_transfer ticket_id new_owner sender_pubkey signature now s :
      step s (snd (transfer_ticket ticket_id new_owner sender_pubkey signature now s))
  | step_redeem ticket_id sender_pubkey signature now s :
      step s (snd (redeem_ticket ticket_id sender_pubkey signature now s))
  | step_mine fuel now s r s' :
      mine fuel now s = Returned (r, s') ->
      step s s'.

(** The states the service goes through from start-up. *)
Inductive reachable : Blockchain.t -> Prop :=
  | reachable_init now : reachable (Blockchain.init now)
  | reachable_step s s' : reachable s -> step s s' -> reachable s'.

(** The difficulty test of [proof_of_work] on the live hash of a block. *)
Definition sealed (block : Block.t) : bool :=
  startswith (Block.compute_hash block) (str_mul "0" Blockchain.difficulty).

(** The block [Blockchain.mine] hands to [proof_of_work], [tip] being
    [self.chain[-1]]. *)
Definition candidate (now : pyfloat) (self : Blockchain.t) (tip : Block.t)
  : Block.t :=
  Block.init (Z.of_nat (length (Blockchain.chain self)))
             (Blockchain.pending_transactions self)
             (Block.compute_hash tip) now.

(** The digits [hexdigest] writes. *)
Definition lower_hex (c : ascii) : Prop :=
  In c (list_ascii_of_string "0123456789abcdef").

(** A transaction names a ticket of the registry [reg]. *)
Definition names_ticket (reg : gmap string ticket) (t : Transaction.t) : Prop :=
  exists ticket_id,
    dict_get (Transaction.data t) "ticket_id" = Some (JStr ticket_id)
    /\ is_Some (reg !! ticket_id).

(** Every transaction, pending or mined, names a ticket of the registry. *)
Definition ledger_names_tickets (s : Blockchain.t) : Prop :=
  Forall (names_ticket (Blockchain.tickets s)) (Blockchain.pending_transactions s)
  /\ Forall (fun block =>
               Forall (names_ticket (Blockchain.tickets s)) (Block.transactions block))
            (Blockchain.chain s).

(** Every block after the first holds a transaction. *)
Definition later_blocks_nonempty (chain : list Block.t) : Prop :=
  Forall (fun block => Block.transactions block <> []) (tail chain).

(** The transactions of the ledger in the order they were posted: those of
    the blocks, then the pending ones. *)
Definition ledger (s : Blockchain.t) : list Transaction.t :=
  (flat_map Block.transactions (Blockchain.chain s)
   ++ Blockchain.pending_transactions s)%list.

(** The kinds of the transactions of the ledger that mention a ticket. *)
Definition kinds_of (ticket_id : string) (s : Blockchain.t) : list string :=
  map Transaction.tx_type (List.filter (mentions ticket_id) (ledger s)).

(** The life of a ticket as the ledger and the registry show it: nothing
    yet; issued and perhaps transferred, with a valid entry; or redeemed
    after that, with a redeemed entry. *)
Definition ticket_shape (entry : option ticket) (kinds : list string) : Prop :=
  (entry = None /\ kinds = [])
  \/ (exists e n,
        entry = Some e /\ status e = "valid"
        /\ kinds = "issue" :: repeat "transfer" n)
  \/ (exists e n,
        entry = Some e /\ status e = "redeemed"
        /\ kinds = ("issue" :: repeat "transfer" n ++ ["redeem"])%list).

(** The text that [Block.compute_hash] hashes. *)
Definition block_string (block : Block.t) : string :=
  Json.dumps (JDict
    [ ("index", JInt (Block.index block));
      ("transactions",
         JList (map (fun t => JDict (Transaction.to_dict t))
                    (Block.transactions block)));
      ("timestamp", JFloat (Block.timestamp block));
      ("prev_hash", JStr (Block.prev_hash block));
      ("nonce", JInt (Block.nonce block)) ]).

(** Reading one escaped character back from the front of a text, the
    inverse of [Json.escape_char]; it is there to show that the escaped
    text of a string can be told apart from what follows it. *)
Definition hex_value (c : ascii) : nat :=
  match String.index 0 (String c "") "0123456789abcdef" with
  | Some i => i
  | None => 0%nat
  end.

Definition unescape_head (s : string) : option (ascii * string) :=
  match s with
  | EmptyString => None
  | String c rest =>
      if Ascii.eqb c Json.backslash then
        match rest with
        | EmptyString => None
        | String x rest' =>
            if Ascii.eqb x "u" then
              match rest' with
              | String _ (String _ (String h (String l rest''))) =>
                  Some (ascii_of_nat (16 * hex_value h + hex_value l)%nat, rest'')
              | _ => None
              end
            else if Ascii.eqb x "n" then Some ("010"%char, rest')
            else if Ascii.eqb x "r" then Some ("013"%char, rest')
            else if Ascii.eqb x "t" then Some ("009"%char, rest')
            else if Ascii.eqb x "f" then Some ("012"%char, rest')
            else if Ascii.eqb x "b" then Some ("008"%char, rest')
            else Some (x, rest')
        end
      else Some (c, rest)
  end.

(** ** A run used in the examples

    One ticket is issued to alice, transferred to bob and redeemed; then a
    block is mined. The time stamps are those the clock gave, and
    [block1] and [s4] are what the [/mine] request produces. *)

Module Demo.

Definition t0 : pyfloat := PyFloat "1700000000.5".
Definition t1 : pyfloat := PyFloat "1700000001.25".
Definition t2 : pyfloat := PyFloat "1700000002.5".
Definition t3 : pyfloat := PyFloat "1700000003.75".
Definition t4 : pyfloat := PyFloat "1700000025.25".

Definition tid : string := "tid-1".

Definition s0 : Blockchain.t := Blockchain.init t0.

Definition s1 : Blockchain.t :=
  snd (issue_ticket (JStr "concert") (JStr "alice") (JInt 10) JNull JNull tid t1 s0).

Definition s2 : Blockchain.t :=
  snd (transfer_ticket tid (JStr "bob") JNull JNull t2 s1).

Definition s3 : Blockchain.t :=
  snd (redeem_ticket tid JNull JNull t3 s2).

Definition genesis : Block.t :=
  Block.Build 0 [] t0 "0" 0
    (Some "b30abed579016426146a677d06fc04c00e31b44246c4b757cd2d38ec3f0f0fde").

Definition tx_issue : Transaction.t :=
  Transaction.Build "issue"
    [ ("ticket_id", JStr tid); ("event", JStr "concert");
      ("owner", JStr "alice"); ("price", JInt 10) ]
    JNull JNull t1.

Definition tx_transfer : Transaction.t :=
  Transaction.Build "transfer"
    [ ("ticket_id", JStr tid); ("new_owner", JStr "bob") ] JNull JNull t2.

Definition tx_redeem : Transaction.t :=
  Transaction.Build "redeem" [ ("ticket_id", JStr tid) ] JNull JNull t3.

Definition block1 : Block.t :=
  Block.Build 1 [tx_issue; tx_transfer; tx_redeem] t4
    "b30abed579016426146a677d06fc04c00e31b44246c4b757cd2d38ec3f0f0fde" 1
    (Some "0030c488a5ad7267e1d13dd931c82291d472a8e3389b720637bcb080df3679f2").

Definition s4 : Blockchain.t :=
  Blockchain.Build [genesis; block1] [] (Blockchain.tickets s3).

End Demo.

(** * Properties *)

(** ** SHA-256 test vectors *)

Example sha256_abc :
  SHA256.hexdigest "abc"
  = "ba7816bf8f01cfea414140de5dae2223b00361a396177a9cb410ff61f20015ad"%string.
Proof. vm_compute. reflexivity. Qed.

Example sha256_empty :
  SHA256.hexdigest EmptyString
  = "e3b0c44298fc1c149afbf4c8996fb92427ae41e4649b934ca495991b7852b855"%string.
Proof. vm_compute. reflexivity. Qed.

Example sha256_two_blocks :
  SHA256.hexdigest "abcdbcdecdefdefgefghfghighijhijkijkljklmklmnlmnomnopnopq"
  = "248d6a61d20638b8e5c026930c3e6039a33ce45964ff2167f6ecedd419db06c1"%string.
Proof. vm_compute. reflexivity. Qed.


(** ** The digest is 64 lowercase hex digits *)

Section HexDigest.

Lemma hex_digit_lower n : lower_hex (SHA256.hex_digit n).
Proof.
  unfold lower_hex, SHA256.hex_digit.
  destruct (nth_in_or_default (Z.to_nat (n mod 16))
              (list_ascii_of_string "0123456789abcdef") "0"%char) as [Hin | ->].
  - exact Hin.
  - simpl. auto.
Qed.

Lemma hex_of_lower n : forall x, Forall lower_hex (SHA256.hex_of n x).
Proof.
  induction n as [|n IH]; intros x; simpl.
  - constructor.
  - apply Forall_app. split; [apply IH |].
    constructor; [apply hex_digit_lower | constructor].
Qed.

Lemma hex_of_length n : forall x, length (SHA256.hex_of n x) = n.
Proof.
  induction n as [|n IH]; intros x; simpl; [done |].
  rewrite length_app, IH. simpl. lia.
Qed.

Lemma hex_words_lower ws : Forall lower_hex (flat_map (SHA256.hex_of 8) ws).
Proof.
  induction ws as [|w ws IH]; [constructor |].
  change (flat_map (SHA256.hex_of 8) (w :: ws))
    with (SHA256.hex_of 8 w ++ flat_map (SHA256.hex_of 8) ws)%list.
  apply Forall_app. split; [apply hex_of_lower | exact IH].
Qed.

Lemma hex_words_length ws :
  length (flat_map (SHA256.hex_of 8) ws) = (8 * length ws)%nat.
Proof.
  induction ws as [|w ws IH]; [done |].
  change (flat_map (SHA256.hex_of 8) (w :: ws))
    with (SHA256.hex_of 8 w ++ flat_map (SHA256.hex_of 8) ws)%list.
  rewrite length_app, hex_of_length, IH. simpl. lia.
Qed.

Lemma digest_length msg : length (SHA256.digest msg) = 8%nat.
Proof. reflexivity. Qed.

Lemma string_of_list_ascii_length l :
  String.length (string_of_list_ascii l) = length l.
Proof. induction l as [|c l IH]; simpl; congruence. Qed.

Lemma hexdigest_lower s :
  Forall lower_hex (list_ascii_of_string (SHA256.hexdigest s)).
Proof.
  unfold SHA256.hexdigest. rewrite list_ascii_of_string_of_list_ascii.
  apply hex_words_lower.
Qed.

Lemma hexdigest_length s : String.length (SHA256.hexdigest s) = 64%nat.
Proof.
  unfold SHA256.hexdigest.
  by rewrite string_of_list_ascii_length, hex_words_length, digest_length.
Qed.

(** A sealed hash begins with two zero digits. *)
Lemma startswith_zeros proof :
  startswith proof (str_mul "0" Blockchain.difficulty) = true ->
  exists rest, proof = String "0" (String "0" rest).
Proof.
  unfold startswith. change (str_mul "0" Blockchain.difficulty) with "00".
  intros Hpre. apply prefix_correct in Hpre.
  destruct proof as [|a [|b rest]]; try discriminate Hpre.
  simpl in Hpre. injection Hpre as -> ->. eauto.
Qed.

End HexDigest.

(** ** Sorting the keys makes the text independent of their order *)

Section KeySort.

Context {A : Type}.

Implicit Types (x y z : string * A) (l : list (string * A)).

Lemma leb_trans (a b c : string) :
  String.leb a b = true -> String.leb b c = true -> String.leb a c = true.
Proof.
  intros Hab Hbc. apply Is_true_true.
  apply Is_true_true in Hab. apply Is_true_true in Hbc.
  exact (transitivity (R := String.le) Hab Hbc).
Qed.

Lemma leb_false_flip (a b : string) :
  String.leb a b = false -> String.leb b a = true.
Proof.
  intros Hab. destruct (String.leb_total a b) as [H | H]; [congruence | exact H].
Qed.

Lemma insert_item_nil x : Json.insert_item x [] = [x].
Proof. reflexivity. Qed.

Lemma insert_item_cons x y l :
  Json.insert_item x (y :: l)
  = if String.leb (fst x) (fst y) then x :: y :: l
    else y :: Json.insert_item x l.
Proof. reflexivity. Qed.

(** Two insertions of distinct keys commute, whatever the list. *)
Lemma insert_item_comm x y : fst x <> fst y -> forall l,
  Json.insert_item x (Json.insert_item y l)
  = Json.insert_item y (Json.insert_item x l).
Proof.
  intros Hne l. induction l as [|z l IH].
  - rewrite !insert_item_nil, !insert_item_cons, !insert_item_nil.
    destruct (String.leb (fst x) (fst y)) eqn:Hxy,
             (String.leb (fst y) (fst x)) eqn:Hyx; try reflexivity.
    + destruct Hne. by apply String.leb_antisym.
    + apply leb_false_flip in Hxy. congruence.
  - rewrite (insert_item_cons y z), (insert_item_cons x z).
    destruct (String.leb (fst y) (fst z)) eqn:Hyz,
             (String.leb (fst x) (fst z)) eqn:Hxz;
      rewrite !insert_item_cons, ?Hyz, ?Hxz.
    + destruct (String.leb (fst x) (fst y)) eqn:Hxy,
               (String.leb (fst y) (fst x)) eqn:Hyx; try reflexivity.
      * destruct Hne. by apply String.leb_antisym.
      * apply leb_false_flip in Hxy. congruence.
    + destruct (String.leb (fst x) (fst y)) eqn:Hxy.
      * rewrite (leb_trans _ _ _ Hxy Hyz) in Hxz. discriminate.
      * reflexivity.
    + destruct (String.leb (fst y) (fst x)) eqn:Hyx.
      * rewrite (leb_trans _ _ _ Hyx Hxz) in Hyz. discriminate.
      * reflexivity.
    + by rewrite IH.
Qed.

Lemma sort_items_cons x l :
  Json.sort_items (x :: l) = Json.insert_item x (Json.sort_items l).
Proof. reflexivity. Qed.

(** Two orders of the same items, their keys being distinct, sort to the
    same list. *)
Lemma sort_items_perm l1 l2 :
  Permutation l1 l2 -> NoDup (map fst l1) ->
  Json.sort_items l1 = Json.sort_items l2.
Proof.
  induction 1 as [| x l1 l2 Hperm IH | x y l | l1 l2 l3 H12 IH12 H23 IH23];
    intros Hnodup.
  - reflexivity.
  - rewrite !sort_items_cons. f_equal. apply IH.
    by apply NoDup_cons_1_2 in Hnodup.
  - rewrite !sort_items_cons. apply insert_item_comm.
    apply NoDup_cons in Hnodup as [Hnotin _].
    intros Heq. apply Hnotin. rewrite Heq. simpl. by left.
  - rewrite IH12 by done. apply IH23.
    by rewrite <- (Permutation_map fst H12).
Qed.

End KeySort.

(** The text of a dict does not depend on the order its keys were inserted
    in. *)
Lemma dumps_dict_perm (d1 d2 : dict) :
  Permutation d1 d2 -> NoDup (map fst d1) ->
  Json.dumps (JDict d1) = Json.dumps (JDict d2).
Proof.
  intros Hperm Hnodup.
  set (f := fun kv : string * json =>
              match kv with (k, x) => (k, Json.dumps x) end).
  change (Json.dumps (JDict d1))
    with ("{" ++ String.concat ", " (map Json.dump_item (Json.sort_items (map f d1)))
          ++ "}").
  change (Json.dumps (JDict d2))
    with ("{" ++ String.concat ", " (map Json.dump_item (Json.sort_items (map f d2)))
          ++ "}").
  rewrite (sort_items_perm (map f d1) (map f d2)); [done | |].
  - by apply Permutation_map.
  - rewrite map_map.
    replace (map (fun kv => fst (f kv)) d1) with (map fst d1); [done |].
    apply map_ext. by intros [k x].
Qed.

(** The keys of the record of a transaction are distinct, so its hash can
    be recomputed from the record in any key order. *)
Lemma to_dict_keys t :
  map fst (Transaction.to_dict t)
  = ["tx_type"; "data"; "sender_pubkey"; "signature"; "timestamp"].
Proof. reflexivity. Qed.

Lemma to_dict_keys_distinct t : NoDup (map fst (Transaction.to_dict t)).
Proof. rewrite to_dict_keys. compute_done. Qed.

Lemma hash_of_record t record :
  Permutation record (Transaction.to_dict t) ->
  SHA256.hexdigest (Json.dumps (JDict record)) = Transaction.compute_hash t.
Proof.
  intros Hperm. unfold Transaction.compute_hash. f_equal.
  apply dumps_dict_perm; [exact Hperm |].
  rewrite (Permutation_map fst Hperm). apply to_dict_keys_distinct.
Qed.

(** ** The text of a block shows its [prev_hash] *)

Section BlockText.

Lemma string_app_assoc (a b c : string) : (a ++ b) ++ c = a ++ (b ++ c).
Proof.
  induction a as [|x a IH]; [reflexivity |].
  change (String x ((a ++ b) ++ c) = String x (a ++ (b ++ c))). by rewrite IH.
Qed.

Lemma string_app_nil_r (a : string) : a ++ "" = a.
Proof.
  induction a as [|x a IH]; [reflexivity |].
  change (String x (a ++ "") = String x a). by rewrite IH.
Qed.

Lemma concat_cons (x : string) (l : list string) :
  String.concat "" (x :: l) = x ++ String.concat "" l.
Proof.
  destruct l as [|y l]; [| reflexivity].
  simpl. by rewrite string_app_nil_r.
Qed.

(** An escaped character can be read back, whatever follows it. *)
Lemma unescape_escape c rest :
  unescape_head (Json.escape_char c ++ rest) = Some (c, rest).
Proof. by destruct c as [[] [] [] [] [] [] [] []]. Qed.

(** No escape begins with a bare quote, which therefore ends the string. *)
Lemma escape_not_quote c rest :
  exists h t, Json.escape_char c ++ rest = String h t /\ h <> Json.dquote.
Proof.
  destruct c as [[] [] [] [] [] [] [] []]; eexists _, _;
    (split; [reflexivity | discriminate]).
Qed.

Lemma escaped_text_inj cs1 : forall cs2 rest1 rest2,
  String.concat "" (map Json.escape_char cs1) ++ String Json.dquote rest1
  = String.concat "" (map Json.escape_char cs2) ++ String Json.dquote rest2 ->
  cs1 = cs2 /\ rest1 = rest2.
Proof.
  induction cs1 as [|c1 cs1 IH]; intros [|c2 cs2] rest1 rest2 Heq.
  - by injection Heq as ->.
  - exfalso. change (map Json.escape_char (c2 :: cs2))
      with (Json.escape_char c2 :: map Json.escape_char cs2) in Heq.
    rewrite concat_cons, string_app_assoc in Heq.
    destruct (escape_not_quote c2
                (String.concat "" (map Json.escape_char cs2)
                 ++ String Json.dquote rest2)) as (h & t & Hhead & Hne).
    rewrite Hhead in Heq. injection Heq as Hq _. by destruct Hne.
  - exfalso. change (map Json.escape_char (c1 :: cs1))
      with (Json.escape_char c1 :: map Json.escape_char cs1) in Heq.
    rewrite concat_cons, string_app_assoc in Heq.
    destruct (escape_not_quote c1
                (String.concat "" (map Json.escape_char cs1)
                 ++ String Json.dquote rest1)) as (h & t & Hhead & Hne).
    rewrite Hhead in Heq. injection Heq as Hq _. by destruct Hne.
  - change (map Json.escape_char (c1 :: cs1))
      with (Json.escape_char c1 :: map Json.escape_char cs1) in Heq.
    change (map Json.escape_char (c2 :: cs2))
      with (Json.escape_char c2 :: map Json.escape_char cs2) in Heq.
    rewrite !concat_cons, !string_app_assoc in Heq.
    apply (f_equal unescape_head) in Heq.
    rewrite !unescape_escape in Heq. injection Heq as -> Heq.
    by destruct (IH _ _ _ Heq) as [-> ->].
Qed.

(** The quoted text of a string, followed by anything, tells the string
    and what follows. *)
Lemma encode_basestring_inj s1 s2 rest1 rest2 :
  Json.encode_basestring_ascii s1 ++ rest1
  = Json.encode_basestring_ascii s2 ++ rest2 ->
  s1 = s2 /\ rest1 = rest2.
Proof.
  unfold Json.encode_basestring_ascii. intros Heq.
  change (String Json.dquote
            ((String.concat "" (map Json.escape_char (list_ascii_of_string s1))
              ++ String Json.dquote "") ++ rest1)
          = String Json.dquote
              ((String.concat "" (map Json.escape_char (list_ascii_of_string s2))
                ++ String Json.dquote "") ++ rest2)) in Heq.
  injection Heq as Heq. rewrite !string_app_assoc in Heq.
  change (String Json.dquote "" ++ rest1) with (String Json.dquote rest1) in Heq.
  change (String Json.dquote "" ++ rest2) with (String Json.dquote rest2) in Heq.
  destruct (escaped_text_inj _ _ _ _ Heq) as [Hcs ->]. split; [| done].
  by rewrite <- (string_of_list_ascii_of_string s1),
             <- (string_of_list_ascii_of_string s2), Hcs.
Qed.

(** [json.dumps] sorts the five keys of a block as index, nonce, prev_hash,
    timestamp, transactions. *)
Lemma sort_block_items {A : Type} (vi vt vs vp vn : A) :
  Json.sort_items
    [ ("index", vi); ("transactions", vt); ("timestamp", vs);
      ("prev_hash", vp); ("nonce", vn) ]
  = [ ("index", vi); ("nonce", vn); ("prev_hash", vp);
      ("timestamp", vs); ("transactions", vt) ].
Proof. reflexivity. Qed.

(** The text of a block: what comes before the quoted [prev_hash] depends on
    the index and the nonce only. *)
Lemma block_string_split block :
  block_string block
  = ("{" ++ Json.encode_basestring_ascii "index" ++ ": "
         ++ Json.int_repr (Block.index block) ++ ", "
         ++ Json.encode_basestring_ascii "nonce" ++ ": "
         ++ Json.int_repr (Block.nonce block) ++ ", "
         ++ Json.encode_basestring_ascii "prev_hash" ++ ": ")
    ++ Json.encode_basestring_ascii (Block.prev_hash block)
    ++ (", " ++ Json.encode_basestring_ascii "timestamp" ++ ": "
             ++ float_repr (Block.timestamp block) ++ ", "
             ++ Json.encode_basestring_ascii "transactions" ++ ": "
             ++ Json.dumps
                  (JList (map (fun t => JDict (Transaction.to_dict t))
                              (Block.transactions block))))
    ++ "}".
Proof.
  unfold block_string.
  match goal with
  | |- Json.dumps (JDict ?d) = _ =>
      change (Json.dumps (JDict d))
        with ("{" ++ String.concat ", "
                       (map Json.dump_item
                          (Json.sort_items
                             (map (fun kv : string * json =>
                                     match kv with (k, x) => (k, Json.dumps x) end)
                                  d)))
                  ++ "}")
  end.
  cbn [map]. rewrite sort_block_items. cbn [map String.concat].
  unfold Json.dump_item. cbn [fst snd].
  change (Json.dumps (JInt (Block.index block)))
    with (Json.int_repr (Block.index block)).
  change (Json.dumps (JInt (Block.nonce block)))
    with (Json.int_repr (Block.nonce block)).
  change (Json.dumps (JStr (Block.prev_hash block)))
    with (Json.encode_basestring_ascii (Block.prev_hash block)).
  change (Json.dumps (JFloat (Block.timestamp block)))
    with (float_repr (Block.timestamp block)).
  by rewrite !string_app_assoc.
Qed.

Lemma compute_hash_block_string block :
  Block.compute_hash block = SHA256.hexdigest (block_string block).
Proof. reflexivity. Qed.

End BlockText.

(** ** Proof of work *)

#[local] Opaque SHA256.hexdigest Json.dumps.
#[local] Opaque Block.compute_hash Transaction.compute_hash.
#[local] Opaque startswith str_mul.

Section ProofOfWork.

Implicit Types (block : Block.t) (fuel : nat) (proof : string).

Lemma set_nonce_same block : Block.set_nonce (Block.nonce block) block = block.
Proof. by destruct block. Qed.

Lemma set_nonce_twice n m block :
  Block.set_nonce n (Block.set_nonce m block) = Block.set_nonce n block.
Proof. reflexivity. Qed.

(** The two equations of the loop. *)
Lemma proof_of_work_loop_O block h :
  Blockchain.proof_of_work_loop 0 block h
  = if startswith h (str_mul "0" Blockchain.difficulty) then Some (h, block)
    else None.
Proof. reflexivity. Qed.

Lemma proof_of_work_loop_S fuel block h :
  Blockchain.proof_of_work_loop (S fuel) block h
  = if startswith h (str_mul "0" Blockchain.difficulty) then Some (h, block)
    else Blockchain.proof_of_work_loop fuel
           (Block.set_nonce (Block.nonce block + 1) block)
           (Block.compute_hash (Block.set_nonce (Block.nonce block + 1) block)).
Proof. reflexivity. Qed.

(** What the loop returns passed the test, is the hash of the block as the
    loop leaves it, and that block differs from the one it was entered with
    in its nonce only, which never went down. *)
Lemma proof_of_work_loop_sound fuel : forall block proof block',
  Blockchain.proof_of_work_loop fuel block (Block.compute_hash block)
    = Some (proof, block') ->
  sealed block' = true
  /\ proof = Block.compute_hash block'
  /\ block' = Block.set_nonce (Block.nonce block') block
  /\ (Block.nonce block <= Block.nonce block')%Z.
Proof.
  induction fuel as [|fuel IH]; intros block proof block';
    [rewrite proof_of_work_loop_O | rewrite proof_of_work_loop_S];
    destruct (startswith (Block.compute_hash block) _) eqn:Htest;
    intros Hrun.
  - injection Hrun as <- <-. by rewrite set_nonce_same.
  - discriminate Hrun.
  - injection Hrun as <- <-. by rewrite set_nonce_same.
  - apply IH in Hrun as (Hs & Hp & Hb & Hn).
    change (Block.nonce (Block.set_nonce (Block.nonce block + 1) block))
      with (Block.nonce block + 1)%Z in Hn.
    rewrite set_nonce_twice in Hb.
    repeat split; [done | done | done | lia].
Qed.

(** The loop stops at the first nonce that passes: none below it does. *)
Lemma proof_of_work_loop_least fuel : forall block proof block',
  Blockchain.proof_of_work_loop fuel block (Block.compute_hash block)
    = Some (proof, block') ->
  forall n, (Block.nonce block <= n < Block.nonce block')%Z ->
            sealed (Block.set_nonce n block) = false.
Proof.
  induction fuel as [|fuel IH]; intros block proof block';
    [rewrite proof_of_work_loop_O | rewrite proof_of_work_loop_S];
    destruct (startswith (Block.compute_hash block) _) eqn:Htest;
    intros Hrun n Hn.
  - injection Hrun as <- <-. lia.
  - discriminate Hrun.
  - injection Hrun as <- <-. lia.
  - destruct (decide (n = Block.nonce block)) as [-> | Hne].
    + by rewrite set_nonce_same.
    + rewrite <- (set_nonce_twice n (Block.nonce block + 1) block).
      eapply IH; [exact Hrun |].
      change (Block.nonce (Block.set_nonce (Block.nonce block + 1) block))
        with (Block.nonce block + 1)%Z.
      lia.
Qed.

(** If the nonce [k] steps ahead passes the test, fuel [k] is enough. *)
Lemma proof_of_work_loop_complete k : forall block,
  sealed (Block.set_nonce (Block.nonce block + Z.of_nat k) block) = true ->
  exists proof block',
    Blockchain.proof_of_work_loop k block (Block.compute_hash block)
      = Some (proof, block').
Proof.
  induction k as [|k IH]; intros block Hk.
  - rewrite proof_of_work_loop_O.
    replace (Block.nonce block + Z.of_nat 0)%Z with (Block.nonce block) in Hk by lia.
    rewrite set_nonce_same in Hk. unfold sealed in Hk. rewrite Hk. eauto.
  - rewrite proof_of_work_loop_S.
    destruct (startswith (Block.compute_hash block) _); [eauto |].
    apply IH. rewrite set_nonce_twice.
    change (Block.nonce (Block.set_nonce (Block.nonce block + 1) block))
      with (Block.nonce block + 1)%Z.
    by replace (Block.nonce block + 1 + Z.of_nat k)%Z
      with (Block.nonce block + Z.of_nat (S k))%Z by lia.
Qed.

(** More fuel does not change a result. *)
Lemma proof_of_work_loop_mono fuel : forall fuel' block h r,
  (fuel <= fuel')%nat ->
  Blockchain.proof_of_work_loop fuel block h = Some r ->
  Blockchain.proof_of_work_loop fuel' block h = Some r.
Proof.
  induction fuel as [|fuel IH]; intros [|fuel'] block h r Hle;
    rewrite ?proof_of_work_loop_O, ?proof_of_work_loop_S;
    destruct (startswith h _); try done; try lia.
  apply IH. lia.
Qed.

Lemma proof_of_work_sound fuel block proof block' :
  Blockchain.proof_of_work fuel block = Some (proof, block') ->
  sealed block' = true
  /\ proof = Block.compute_hash block'
  /\ block' = Block.set_nonce (Block.nonce block') block
  /\ (0 <= Block.nonce block')%Z.
Proof.
  unfold Blockchain.proof_of_work. intros Hrun.
  apply proof_of_work_loop_sound in Hrun as (Hs & Hp & Hb & Hn).
  by rewrite set_nonce_twice in Hb.
Qed.

Lemma proof_of_work_complete n block :
  (0 <= n)%Z ->
  sealed (Block.set_nonce n block) = true ->
  exists proof block',
    Blockchain.proof_of_work (Z.to_nat n) block = Some (proof, block').
Proof.
  intros Hn Hs. unfold Blockchain.proof_of_work.
  apply proof_of_work_loop_complete. rewrite set_nonce_twice.
  change (Block.nonce (Block.set_nonce 0 block)) with 0%Z.
  by rewrite Z2Nat.id.
Qed.

End ProofOfWork.

(** ** Mining *)

Section Mining.

Implicit Types (self : Blockchain.t) (fuel : nat) (now : pyfloat).

(** The two ways [mine] returns. *)
Lemma mine_returned fuel now self r self' :
  Blockchain.mine fuel now self = Returned (r, self') ->
  (Blockchain.pending_transactions self = []
   /\ r = Blockchain.MinedFalse /\ self' = self)
  \/ (Blockchain.pending_transactions self <> []
      /\ exists tip proof block',
           last (Blockchain.chain self) = Some tip
           /\ Blockchain.proof_of_work fuel (candidate now self tip)
              = Some (proof, block')
           /\ r = Blockchain.MinedBlock (Block.set_hash proof block')
           /\ self' = Blockchain.Build
                        (Blockchain.chain self ++ [Block.set_hash proof block'])
                        [] (Blockchain.tickets self)).
Proof.
  unfold Blockchain.mine.
  destruct (Blockchain.pending_transactions self) as [|t pending] eqn:Hpending.
  - intros [= <- <-]. by left.
  - destruct (last (Blockchain.chain self)) as [tip|] eqn:Htip; [|discriminate].
    unfold candidate. rewrite Hpending.
    destruct (Blockchain.proof_of_work fuel _)
      as [[proof block']|] eqn:Hpow; [|discriminate].
    intros [= <- <-]. right. split; [done |].
    by exists tip, proof, block'.
Qed.

(** With something pending, a tip to link to and a nonce that seals the
    candidate, [mine] returns a block once it has fuel up to that nonce. *)
Lemma mine_terminates now self tip n :
  Blockchain.pending_transactions self <> [] ->
  last (Blockchain.chain self) = Some tip ->
  (0 <= n)%Z ->
  sealed (Block.set_nonce n (candidate now self tip)) = true ->
  exists new_block self',
    Blockchain.mine (Z.to_nat n) now self
    = Returned (Blockchain.MinedBlock new_block, self').
Proof.
  intros Hpending Htip Hn Hsealed.
  destruct (proof_of_work_complete n _ Hn Hsealed) as (proof & block' & Hpow).
  unfold Blockchain.mine.
  destruct (Blockchain.pending_transactions self) as [|t pending] eqn:Hp; [done |].
  rewrite Htip. unfold candidate in Hpow. rewrite Hp in Hpow. rewrite Hpow. eauto.
Qed.

(** The same two ways, seen from the [/mine] route. *)
Lemma route_mine_returned fuel now self resp self' :
  mine fuel now self = Returned (resp, self') ->
  (Blockchain.pending_transactions self = [] /\ self' = self)
  \/ (Blockchain.pending_transactions self <> []
      /\ exists block,
           Block.transactions block = Blockchain.pending_transactions self
           /\ self' = Blockchain.Build (Blockchain.chain self ++ [block])%list []
                        (Blockchain.tickets self)).
Proof.
  unfold mine. intros Hmine.
  destruct (Blockchain.mine fuel now self) as [[m s2] | e |] eqn:Hrun;
    try discriminate.
  assert (s2 = self') as ->.
  { destruct m as [|block]; [congruence |].
    destruct (Block.hash block); [congruence | discriminate]. }
  apply mine_returned in Hrun
    as [(Hnil & _ & ->) | (Hpending & tip & proof & block' & _ & Hpow & _ & ->)];
    [by left |].
  right. split; [exact Hpending |].
  exists (Block.set_hash proof block'). split; [| reflexivity].
  apply proof_of_work_sound in Hpow as (_ & _ & -> & _). reflexivity.
Qed.

End Mining.

(** ** The run of [Demo], evaluated *)

Lemma demo_s3 :
  Demo.s3
  = Blockchain.Build [Demo.genesis]
      [Demo.tx_issue; Demo.tx_transfer; Demo.tx_redeem]
      (<[Demo.tid := Ticket (JStr "bob") "redeemed"]>
         (<[Demo.tid := Ticket (JStr "bob") "valid"]>
            (<[Demo.tid := Ticket (JStr "alice") "valid"]> ∅))).
Proof. vm_compute. reflexivity. Qed.

Lemma demo_mine :
  Blockchain.mine 1 Demo.t4 Demo.s3
  = Returned (Blockchain.MinedBlock Demo.block1, Demo.s4).
Proof. vm_compute. reflexivity. Qed.

(** ** Claims on mining *)

(** C1. Every block that [mine] produces carries a stored hash that passes
    the difficulty test (it begins with [difficulty] = 2 zero digits) and
    that is [compute_hash()] of the block at its final nonce; the same holds
    of what [proof_of_work] returns for the block it leaves. And [mine] does
    produce the block once its fuel reaches a nonce that seals the
    candidate. *)
Theorem mined_block_is_sealed :
  (forall fuel now self new_block self',
     Blockchain.mine fuel now self
       = Returned (Blockchain.MinedBlock new_block, self') ->
     exists proof,
       Block.hash new_block = Some proof
       /\ startswith proof (str_mul "0" Blockchain.difficulty) = true
       /\ (exists rest, proof = String "0" (String "0" rest))
       /\ proof = Block.compute_hash new_block)
  /\ (forall fuel block proof block',
        Blockchain.proof_of_work fuel block = Some (proof, block') ->
        startswith proof (str_mul "0" Blockchain.difficulty) = true
        /\ proof = Block.compute_hash block'
        /\ block' = Block.set_nonce (Block.nonce block') block)
  /\ (forall now self tip n,
        Blockchain.pending_transactions self <> [] ->
        last (Blockchain.chain self) = Some tip ->
        (0 <= n)%Z ->
        sealed (Block.set_nonce n (candidate now self tip)) = true ->
        exists new_block self',
          Blockchain.mine (Z.to_nat n) now self
          = Returned (Blockchain.MinedBlock new_block, self')).
Proof.
  split; [| split].
  - intros fuel now self new_block self' Hmine.
    apply mine_returned in Hmine
      as [(_ & Hr & _) | (_ & tip & proof & block' & _ & Hpow & Hr & _)];
      [discriminate Hr |].
    injection Hr as ->.
    apply proof_of_work_sound in Hpow as (Hsealed & Hproof & _ & _).
    exists proof. repeat split.
    + rewrite Hproof. exact Hsealed.
    + apply startswith_zeros. rewrite Hproof. exact Hsealed.
    + exact Hproof.
  - intros fuel block proof block' Hpow.
    apply proof_of_work_sound in Hpow as (Hsealed & Hproof & Hblock & _).
    repeat split; [| done | done]. rewrite Hproof. exact Hsealed.
  - intros now self tip n. apply mine_terminates.
Qed.

Lemma mined_block_is_sealed_witness :
  (exists proof,
     Block.hash Demo.block1 = Some proof
     /\ startswith proof (str_mul "0" Blockchain.difficulty) = true
     /\ (exists rest, proof = String "0" (String "0" rest))
     /\ proof = Block.compute_hash Demo.block1)
  /\ (exists new_block self',
        Blockchain.mine (Z.to_nat 1) Demo.t4 Demo.s3
        = Returned (Blockchain.MinedBlock new_block, self')).
Proof.
  split.
  - apply (proj1 mined_block_is_sealed 1%nat Demo.t4 Demo.s3 Demo.block1 Demo.s4).
    vm_compute. reflexivity.
  - apply (proj2 (proj2 mined_block_is_sealed) Demo.t4 Demo.s3 Demo.genesis 1%Z).
    + vm_compute. discriminate.
    + vm_compute. reflexivity.
    + lia.
    + vm_compute. reflexivity.
Defined.

(** C2. With a transaction pending, a [mine] that returns appends exactly one
    block: its index is the chain length before the call, its transactions
    are the pending buffer in insertion order, and its [prev_hash] is
    [compute_hash()] recomputed on the previous tip. Afterwards the chain is
    one block longer and nothing is pending. *)
Theorem mine_appends_pending fuel now self r self' :
  Blockchain.pending_transactions self <> [] ->
  Blockchain.mine fuel now self = Returned (r, self') ->
  exists new_block tip,
    r = Blockchain.MinedBlock new_block
    /\ last (Blockchain.chain self) = Some tip
    /\ Block.index new_block = Z.of_nat (length (Blockchain.chain self))
    /\ Block.transactions new_block = Blockchain.pending_transactions self
    /\ Block.prev_hash new_block = Block.compute_hash tip
    /\ Blockchain.chain self' = (Blockchain.chain self ++ [new_block])%list
    /\ length (Blockchain.chain self') = S (length (Blockchain.chain self))
    /\ Blockchain.pending_transactions self' = []
    /\ Blockchain.tickets self' = Blockchain.tickets self.
Proof.
  intros Hpending Hmine.
  apply mine_returned in Hmine
    as [(Hnil & _) | (_ & tip & proof & block' & Htip & Hpow & -> & ->)];
    [done |].
  apply proof_of_work_sound in Hpow as (_ & _ & Hblock & _).
  exists (Block.set_hash proof block'), tip.
  rewrite Hblock.
  repeat split; try done.
  simpl. rewrite length_app. simpl. lia.
Qed.

Lemma mine_appends_pending_witness :
  exists new_block tip,
    Blockchain.MinedBlock Demo.block1 = Blockchain.MinedBlock new_block
    /\ last (Blockchain.chain Demo.s3) = Some tip
    /\ Block.index new_block = Z.of_nat (length (Blockchain.chain Demo.s3))
    /\ Block.transactions new_block = Blockchain.pending_transactions Demo.s3
    /\ Block.prev_hash new_block = Block.compute_hash tip
    /\ Blockchain.chain Demo.s4 = (Blockchain.chain Demo.s3 ++ [new_block])%list
    /\ length (Blockchain.chain Demo.s4) = S (length (Blockchain.chain Demo.s3))
    /\ Blockchain.pending_transactions Demo.s4 = []
    /\ Blockchain.tickets Demo.s4 = Blockchain.tickets Demo.s3.
Proof.
  apply (mine_appends_pending 1%nat Demo.t4 Demo.s3 _ Demo.s4).
  - vm_compute. discriminate.
  - vm_compute. reflexivity.
Defined.

(** C3. With nothing pending, [mine] returns [False] whatever its fuel: no
    block is made, nothing is raised, and the chain, the pending buffer and
    the ticket registry are as they were. The route answers with the
    message that there is nothing to mine, status 200. *)
Theorem mine_nothing_pending fuel now self :
  Blockchain.pending_transactions self = [] ->
  Blockchain.mine fuel now self = Returned (Blockchain.MinedFalse, self)
  /\ mine fuel now self
     = Returned ((JDict [("message", JStr "No transactions to mine")], 200%Z), self).
Proof.
  intros Hpending. unfold mine, Blockchain.mine. by rewrite Hpending.
Qed.

Lemma mine_nothing_pending_witness :
  Blockchain.mine 0 Demo.t1 Demo.s0 = Returned (Blockchain.MinedFalse, Demo.s0)
  /\ mine 0 Demo.t1 Demo.s0
     = Returned ((JDict [("message", JStr "No transactions to mine")], 200%Z), Demo.s0).
Proof.
  apply (mine_nothing_pending 0%nat Demo.t1 Demo.s0). reflexivity.
Defined.

(** ** Claims on the guarded handlers *)

Section Handlers.

Implicit Types (s : Blockchain.t) (ticket_id : string) (now : pyfloat).

(** The guard of [transfer_ticket] and [redeem_ticket], as a proposition. *)
Lemma guard_cases s ticket_id :
  (Blockchain.tickets s !! ticket_id = None
   \/ exists entry, Blockchain.tickets s !! ticket_id = Some entry
                    /\ status entry <> "valid")
  \/ (exists entry, Blockchain.tickets s !! ticket_id = Some entry
                    /\ status entry = "valid").
Proof.
  destruct (Blockchain.tickets s !! ticket_id) as [entry|]; [| by left; left].
  destruct (String.eqb_spec (status entry) "valid"); [right | left; right]; eauto.
Qed.

Lemma transfer_ticket_rejects s ticket_id new_owner sender_pubkey signature now :
  (Blockchain.tickets s !! ticket_id = None
   \/ exists entry, Blockchain.tickets s !! ticket_id = Some entry
                    /\ status entry <> "valid") ->
  transfer_ticket ticket_id new_owner sender_pubkey signature now s
  = ((JDict [("error", JStr "Invalid ticket")], 400%Z), s).
Proof.
  unfold transfer_ticket, Blockchain.verify_ticket.
  intros [-> | (entry & -> & Hstatus)]; [done |].
  apply String.eqb_neq in Hstatus. by rewrite Hstatus.
Qed.

Lemma transfer_ticket_accepts s ticket_id new_owner sender_pubkey signature now entry :
  Blockchain.tickets s !! ticket_id = Some entry ->
  status entry = "valid" ->
  transfer_ticket ticket_id new_owner sender_pubkey signature now s
  = ((JDict [("message", JStr "Ticket transferred")], 200%Z),
     Blockchain.Build
       (Blockchain.chain s)
       (Blockchain.pending_transactions s
        ++ [Transaction.Build "transfer"
              [("ticket_id", JStr ticket_id); ("new_owner", new_owner)]
              sender_pubkey signature now])%list
       (<[ticket_id := Ticket new_owner "valid"]> (Blockchain.tickets s))).
Proof.
  unfold transfer_ticket, Blockchain.verify_ticket.
  intros -> Hstatus. apply String.eqb_eq in Hstatus. by rewrite Hstatus.
Qed.

Lemma redeem_ticket_rejects s ticket_id sender_pubkey signature now :
  (Blockchain.tickets s !! ticket_id = None
   \/ exists entry, Blockchain.tickets s !! ticket_id = Some entry
                    /\ status entry <> "valid") ->
  redeem_ticket ticket_id sender_pubkey signature now s
  = ((JDict [("error", JStr "Invalid or already redeemed ticket")], 400%Z), s).
Proof.
  unfold redeem_ticket, Blockchain.verify_ticket.
  intros [-> | (entry & -> & Hstatus)]; [done |].
  apply String.eqb_neq in Hstatus. by rewrite Hstatus.
Qed.

Lemma redeem_ticket_accepts s ticket_id sender_pubkey signature now entry :
  Blockchain.tickets s !! ticket_id = Some entry ->
  status entry = "valid" ->
  redeem_ticket ticket_id sender_pubkey signature now s
  = ((JDict [("message", JStr "Ticket redeemed")], 200%Z),
     Blockchain.Build
       (Blockchain.chain s)
       (Blockchain.pending_transactions s
        ++ [Transaction.Build "redeem" [("ticket_id", JStr ticket_id)]
              sender_pubkey signature now])%list
       (<[ticket_id := Ticket (owner entry) "redeemed"]> (Blockchain.tickets s))).
Proof.
  unfold redeem_ticket, Blockchain.verify_ticket.
  intros -> Hstatus. apply String.eqb_eq in Hstatus. by rewrite Hstatus.
Qed.

End Handlers.

(** C4. [transfer]: with no registry entry for the ticket, or one whose
    status is not ["valid"], the call answers "Invalid ticket" (400) and
    changes nothing; otherwise it appends exactly one [transfer] transaction
    to the pending buffer and records the new owner with status ["valid"],
    the chain and the other entries being untouched. *)
Theorem transfer_ticket_guarded ticket_id new_owner sender_pubkey signature now s :
  ((Blockchain.tickets s !! ticket_id = None
    \/ exists entry, Blockchain.tickets s !! ticket_id = Some entry
                     /\ status entry <> "valid") ->
   transfer_ticket ticket_id new_owner sender_pubkey signature now s
   = ((JDict [("error", JStr "Invalid ticket")], 400%Z), s))
  /\ (forall entry,
        Blockchain.tickets s !! ticket_id = Some entry ->
        status entry = "valid" ->
        exists tx s',
          transfer_ticket ticket_id new_owner sender_pubkey signature now s
          = ((JDict [("message", JStr "Ticket transferred")], 200%Z), s')
          /\ Transaction.tx_type tx = "transfer"
          /\ Transaction.data tx
             = [("ticket_id", JStr ticket_id); ("new_owner", new_owner)]
          /\ Blockchain.pending_transactions s'
             = (Blockchain.pending_transactions s ++ [tx])%list
          /\ Blockchain.chain s' = Blockchain.chain s
          /\ Blockchain.tickets s' !! ticket_id = Some (Ticket new_owner "valid")
          /\ forall other, other <> ticket_id ->
               Blockchain.tickets s' !! other = Blockchain.tickets s !! other).
Proof.
  split.
  - apply transfer_ticket_rejects.
  - intros entry Hentry Hstatus.
    rewrite (transfer_ticket_accepts _ _ _ _ _ _ _ Hentry Hstatus).
    eexists (Transaction.Build "transfer" _ sender_pubkey signature now), _.
    do 5 (split; [reflexivity |]). split.
    + apply lookup_insert_eq.
    + intros other Hother. by apply lookup_insert_ne.
Qed.

Lemma transfer_ticket_guarded_witness :
  (transfer_ticket Demo.tid (JStr "carol") JNull JNull Demo.t4 Demo.s3
   = ((JDict [("error", JStr "Invalid ticket")], 400%Z), Demo.s3))
  /\ (exists tx s',
        transfer_ticket Demo.tid (JStr "bob") JNull JNull Demo.t2 Demo.s1
        = ((JDict [("message", JStr "Ticket transferred")], 200%Z), s')
        /\ Transaction.tx_type tx = "transfer"
        /\ Transaction.data tx
           = [("ticket_id", JStr Demo.tid); ("new_owner", JStr "bob")]
        /\ Blockchain.pending_transactions s'
           = (Blockchain.pending_transactions Demo.s1 ++ [tx])%list
        /\ Blockchain.chain s' = Blockchain.chain Demo.s1
        /\ Blockchain.tickets s' !! Demo.tid = Some (Ticket (JStr "bob") "valid")
        /\ forall other, other <> Demo.tid ->
             Blockchain.tickets s' !! other = Blockchain.tickets Demo.s1 !! other).
Proof.
  split.
  - apply (proj1 (transfer_ticket_guarded Demo.tid (JStr "carol") JNull JNull
                    Demo.t4 Demo.s3)).
    right. exists (Ticket (JStr "bob") "redeemed"). split.
    + vm_compute. reflexivity.
    + discriminate.
  - apply (proj2 (transfer_ticket_guarded Demo.tid (JStr "bob") JNull JNull
                    Demo.t2 Demo.s1) (Ticket (JStr "alice") "valid")).
    + vm_compute. reflexivity.
    + reflexivity.
Defined.

(** C5. [redeem] answers "Invalid or already redeemed ticket" (400) exactly
    when the registry has no entry for the ticket or one whose status is not
    ["valid"], and then changes nothing; otherwise it appends exactly one
    [redeem] transaction to the pending buffer and sets the status of the
    entry to ["redeemed"], its owner staying the same. *)
Theorem redeem_ticket_guarded ticket_id sender_pubkey signature now s :
  (fst (redeem_ticket ticket_id sender_pubkey signature now s)
     = (JDict [("error", JStr "Invalid or already redeemed ticket")], 400%Z)
   <-> (Blockchain.tickets s !! ticket_id = None
        \/ exists entry, Blockchain.tickets s !! ticket_id = Some entry
                         /\ status entry <> "valid"))
  /\ (fst (redeem_ticket ticket_id sender_pubkey signature now s)
        = (JDict [("error", JStr "Invalid or already redeemed ticket")], 400%Z) ->
      snd (redeem_ticket ticket_id sender_pubkey signature now s) = s)
  /\ (forall entry,
        Blockchain.tickets s !! ticket_id = Some entry ->
        status entry = "valid" ->
        exists tx s',
          redeem_ticket ticket_id sender_pubkey signature now s
          = ((JDict [("message", JStr "Ticket redeemed")], 200%Z), s')
          /\ Transaction.tx_type tx = "redeem"
          /\ Transaction.data tx = [("ticket_id", JStr ticket_id)]
          /\ Blockchain.pending_transactions s'
             = (Blockchain.pending_transactions s ++ [tx])%list
          /\ Blockchain.chain s' = Blockchain.chain s
          /\ Blockchain.tickets s' !! ticket_id
             = Some (Ticket (owner entry) "redeemed")
          /\ forall other, other <> ticket_id ->
               Blockchain.tickets s' !! other = Blockchain.tickets s !! other).
Proof.
  assert (Hfail :
    fst (redeem_ticket ticket_id sender_pubkey signature now s)
      = (JDict [("error", JStr "Invalid or already redeemed ticket")], 400%Z)
    -> Blockchain.tickets s !! ticket_id = None
       \/ exists entry, Blockchain.tickets s !! ticket_id = Some entry
                        /\ status entry <> "valid").
  { destruct (guard_cases s ticket_id) as [Hbad | (entry & Hentry & Hstatus)];
      [done |].
    rewrite (redeem_ticket_accepts _ _ _ _ _ _ Hentry Hstatus). discriminate. }
  split; [split | split].
  - exact Hfail.
  - intros Hbad. by rewrite (redeem_ticket_rejects _ _ _ _ _ Hbad).
  - intros Hresp. by rewrite (redeem_ticket_rejects _ _ _ _ _ (Hfail Hresp)).
  - intros entry Hentry Hstatus.
    rewrite (redeem_ticket_accepts _ _ _ _ _ _ Hentry Hstatus).
    eexists (Transaction.Build "redeem" _ sender_pubkey signature now), _.
    do 5 (split; [reflexivity |]). split.
    + apply lookup_insert_eq.
    + intros other Hother. by apply lookup_insert_ne.
Qed.

Lemma redeem_ticket_guarded_witness :
  (snd (redeem_ticket Demo.tid JNull JNull Demo.t4 Demo.s3) = Demo.s3)
  /\ (exists tx s',
        redeem_ticket Demo.tid JNull JNull Demo.t3 Demo.s2
        = ((JDict [("message", JStr "Ticket redeemed")], 200%Z), s')
        /\ Transaction.tx_type tx = "redeem"
        /\ Transaction.data tx = [("ticket_id", JStr Demo.tid)]
        /\ Blockchain.pending_transactions s'
           = (Blockchain.pending_transactions Demo.s2 ++ [tx])%list
        /\ Blockchain.chain s' = Blockchain.chain Demo.s2
        /\ Blockchain.tickets s' !! Demo.tid
           = Some (Ticket (owner (Ticket (JStr "bob") "valid")) "redeemed")
        /\ forall other, other <> Demo.tid ->
             Blockchain.tickets s' !! other = Blockchain.tickets Demo.s2 !! other).
Proof.
  split.
  - apply (proj1 (proj2 (redeem_ticket_guarded Demo.tid JNull JNull Demo.t4 Demo.s3))).
    vm_compute. reflexivity.
  - apply (proj2 (proj2 (redeem_ticket_guarded Demo.tid JNull JNull Demo.t3 Demo.s2))
             (Ticket (JStr "bob") "valid")).
    + vm_compute. reflexivity.
    + reflexivity.
Defined.

(** ** What one request changes *)

Section Steps.

Implicit Types (s : Blockchain.t) (ticket_id : string).

(** The middle case of [step_inv]: the state is the old one with one
    transaction posted for [ticket_id]. *)
Ltac posted_case ticket_id :=
  right; left; eexists _, ticket_id, _;
  split; [| split; [| reflexivity]];
  [reflexivity | intros ? ?; congruence].

(** A step leaves the state alone (a rejected request, or [/mine] with
    nothing pending), or posts one transaction that names a ticket while
    writing the entry of that ticket, which was absent or ["valid"], or
    moves the pending buffer, not empty, into one new block. *)
Lemma step_inv s s' :
  step s s' ->
  s' = s
  \/ (exists tx ticket_id entry',
        dict_get (Transaction.data tx) "ticket_id" = Some (JStr ticket_id)
        /\ (forall entry, Blockchain.tickets s !! ticket_id = Some entry ->
                          status entry = "valid")
        /\ s' = Blockchain.Build
                  (Blockchain.chain s)
                  (Blockchain.pending_transactions s ++ [tx])%list
                  (<[ticket_id := entry']> (Blockchain.tickets s)))
  \/ (Blockchain.pending_transactions s <> []
      /\ exists block,
           Block.transactions block = Blockchain.pending_transactions s
           /\ s' = Blockchain.Build (Blockchain.chain s ++ [block])%list []
                     (Blockchain.tickets s)).
Proof.
  intros [event owner price pk sg ticket_id now s0 Hfresh
         | ticket_id new_owner pk sg now s0
         | ticket_id pk sg now s0
         | fuel now s0 r s1 Hmine].
  - posted_case ticket_id.
  - destruct (guard_cases s0 ticket_id) as [Hbad | (entry & Hentry & Hstatus)].
    + left. by rewrite (transfer_ticket_rejects _ _ _ _ _ _ Hbad).
    + rewrite (transfer_ticket_accepts _ _ _ _ _ _ _ Hentry Hstatus).
      posted_case ticket_id.
  - destruct (guard_cases s0 ticket_id) as [Hbad | (entry & Hentry & Hstatus)].
    + left. by rewrite (redeem_ticket_rejects _ _ _ _ _ Hbad).
    + rewrite (redeem_ticket_accepts _ _ _ _ _ _ Hentry Hstatus).
      posted_case ticket_id.
  - apply route_mine_returned in Hmine as [[_ ->] | Hmined]; [by left |].
    by right; right.
Qed.

(** The chain starts with the genesis block, which holds no transaction,
    and every later block holds one. *)
Lemma reachable_chain s :
  reachable s ->
  exists genesis rest,
    Blockchain.chain s = genesis :: rest
    /\ Block.index genesis = 0%Z
    /\ Block.transactions genesis = []
    /\ Forall (fun block => Block.transactions block <> []) rest.
Proof.
  induction 1 as [now | s s' _ IH Hstep].
  - eexists _, []. by repeat split.
  - destruct IH as (genesis & rest & Hchain & Hindex & Hempty & Hrest).
    apply step_inv in Hstep
      as [-> | [(tx & id & entry' & _ & _ & ->) | (Hpending & block & Htxs & ->)]].
    + by exists genesis, rest.
    + by exists genesis, rest.
    + exists genesis, (rest ++ [block])%list. simpl. rewrite Hchain.
      repeat split; try done.
      apply Forall_app. split; [done |].
      constructor; [by rewrite Htxs | constructor].
Qed.

(** Every transaction of the ledger names a ticket of the registry. *)
Lemma names_ticket_insert reg ticket_id entry t :
  names_ticket reg t -> names_ticket (<[ticket_id := entry]> reg) t.
Proof.
  intros (id & Hget & Hsome). exists id. split; [done |].
  rewrite lookup_insert. by case_decide.
Qed.

Lemma reachable_names_tickets s : reachable s -> ledger_names_tickets s.
Proof.
  induction 1 as [now | s s' _ IH Hstep].
  - split; [constructor |]. repeat constructor.
  - destruct IH as [Hpending Hchain].
    apply step_inv in Hstep
      as [-> | [(tx & id & entry' & Hget & _ & ->) | (_ & block & Htxs & ->)]].
    + by split.
    + split; simpl.
      * apply Forall_app. split.
        -- eapply Forall_impl; [exact Hpending |].
           intros t. apply names_ticket_insert.
        -- constructor; [| constructor]. exists id. split; [done |].
           by rewrite lookup_insert_eq.
      * eapply Forall_impl; [exact Hchain |]. intros b Hb.
        eapply Forall_impl; [exact Hb |]. intros t. apply names_ticket_insert.
    + split; simpl; [constructor |].
      apply Forall_app. split; [done |].
      constructor; [by rewrite Htxs | constructor].
Qed.

End Steps.

Lemma demo_route_mine :
  mine 1 Demo.t4 Demo.s3
  = Returned
      ((JDict
          [ ("index", JInt 1);
            ("transactions",
             JList [ JDict (Transaction.to_dict Demo.tx_issue);
                     JDict (Transaction.to_dict Demo.tx_transfer);
                     JDict (Transaction.to_dict Demo.tx_redeem) ]);
            ("hash",
             JStr "0030c488a5ad7267e1d13dd931c82291d472a8e3389b720637bcb080df3679f2") ],
        200%Z),
       Demo.s4).
Proof. vm_compute. reflexivity. Qed.

Lemma demo_reachable_s3 : reachable Demo.s3.
Proof.
  eapply reachable_step; [| apply step_redeem].
  eapply reachable_step; [| apply step_transfer].
  eapply reachable_step; [apply reachable_init | apply step_issue].
  reflexivity.
Qed.

Lemma demo_reachable_s4 : reachable Demo.s4.
Proof.
  eapply reachable_step; [exact demo_reachable_s3 |].
  eapply step_mine. exact demo_route_mine.
Qed.

(** ** Claims on the chain and the registry *)

(** C9. Right after [Blockchain()] the chain is the genesis block alone:
    index 0, no transaction, [prev_hash] ["0"], and a stored hash equal to
    its own [compute_hash()]. The difficulty test is not applied to it: the
    genesis block made at the time [Demo.t0] does not pass it. *)
Theorem genesis_after_construction :
  (forall now,
     exists genesis,
       Blockchain.chain (Blockchain.init now) = [genesis]
       /\ Block.index genesis = 0%Z
       /\ Block.transactions genesis = []
       /\ Block.prev_hash genesis = "0"
       /\ Block.nonce genesis = 0%Z
       /\ Block.hash genesis = Some (Block.compute_hash genesis)
       /\ Blockchain.pending_transactions (Blockchain.init now) = []
       /\ Blockchain.tickets (Blockchain.init now) = ∅)
  /\ (exists now genesis proof,
        Blockchain.chain (Blockchain.init now) = [genesis]
        /\ Block.hash genesis = Some proof
        /\ startswith proof (str_mul "0" Blockchain.difficulty) = false).
Proof.
  split.
  - intros now. eexists. by repeat split.
  - exists Demo.t0, Demo.genesis,
      "b30abed579016426146a677d06fc04c00e31b44246c4b757cd2d38ec3f0f0fde".
    split; [| split]; vm_compute; reflexivity.
Qed.

(** C10. In every reachable state the chain begins with the genesis block
    and every other block holds at least one transaction. *)
Theorem later_blocks_hold_transactions s :
  reachable s ->
  later_blocks_nonempty (Blockchain.chain s)
  /\ exists genesis,
       head (Blockchain.chain s) = Some genesis
       /\ Block.index genesis = 0%Z
       /\ Block.transactions genesis = [].
Proof.
  intros Hreach.
  destruct (reachable_chain s Hreach)
    as (genesis & rest & Hchain & Hindex & Hempty & Hrest).
  unfold later_blocks_nonempty. rewrite Hchain. split; [exact Hrest |].
  by exists genesis.
Qed.

Lemma later_blocks_hold_transactions_witness :
  later_blocks_nonempty (Blockchain.chain Demo.s4)
  /\ exists genesis,
       head (Blockchain.chain Demo.s4) = Some genesis
       /\ Block.index genesis = 0%Z
       /\ Block.transactions genesis = [].
Proof.
  exact (later_blocks_hold_transactions Demo.s4 demo_reachable_s4).
Defined.

(** C6. Redeemed is terminal. Once the entry of a ticket has status
    ["redeemed"], it stays as it is through every later run of issue,
    transfer, redeem and mine requests, and in every state of such a run
    [transfer] and [redeem] on that ticket are rejected and change nothing.
    This holds from any state, the reachable ones in particular. *)
Theorem redeemed_is_terminal s ticket_id entry :
  Blockchain.tickets s !! ticket_id = Some entry ->
  status entry = "redeemed" ->
  forall s', rtc step s s' ->
    Blockchain.tickets s' !! ticket_id = Some entry
    /\ (forall new_owner sender_pubkey signature now,
          transfer_ticket ticket_id new_owner sender_pubkey signature now s'
          = ((JDict [("error", JStr "Invalid ticket")], 400%Z), s'))
    /\ (forall sender_pubkey signature now,
          redeem_ticket ticket_id sender_pubkey signature now s'
          = ((JDict [("error", JStr "Invalid or already redeemed ticket")], 400%Z),
             s')).
Proof.
  intros Hentry Hstatus s' Hrun.
  assert (Hkept : Blockchain.tickets s' !! ticket_id = Some entry).
  { induction Hrun as [s | s s1 s2 Hstep _ IH]; [exact Hentry |].
    apply IH.
    apply step_inv in Hstep
      as [-> | [(tx & id & entry' & _ & Hvalid & ->) | (_ & block & _ & ->)]];
      [done | | done].
    simpl. rewrite lookup_insert_ne; [done |].
    intros ->. specialize (Hvalid _ Hentry). congruence. }
  assert (Hbad : Blockchain.tickets s' !! ticket_id = None
                 \/ exists e, Blockchain.tickets s' !! ticket_id = Some e
                              /\ status e <> "valid").
  { right. exists entry. split; [done |]. rewrite Hstatus. discriminate. }
  split; [exact Hkept |]. split.
  - intros. by apply transfer_ticket_rejects.
  - intros. by apply redeem_ticket_rejects.
Qed.

Lemma redeemed_is_terminal_witness :
  Blockchain.tickets Demo.s4 !! Demo.tid = Some (Ticket (JStr "bob") "redeemed")
  /\ (forall new_owner sender_pubkey signature now,
        transfer_ticket Demo.tid new_owner sender_pubkey signature now Demo.s4
        = ((JDict [("error", JStr "Invalid ticket")], 400%Z), Demo.s4))
  /\ (forall sender_pubkey signature now,
        redeem_ticket Demo.tid sender_pubkey signature now Demo.s4
        = ((JDict [("error", JStr "Invalid or already redeemed ticket")], 400%Z),
           Demo.s4)).
Proof.
  apply (redeemed_is_terminal Demo.s3 Demo.tid (Ticket (JStr "bob") "redeemed")).
  - vm_compute. reflexivity.
  - reflexivity.
  - apply rtc_once. eapply step_mine. exact demo_route_mine.
Defined.

(** What the uniqueness of [uuid4] is needed for: were [issue_ticket] handed
    the identifier of a redeemed ticket, the entry would be valid again. *)
Lemma issue_on_used_id_revives :
  Blockchain.tickets Demo.s3 !! Demo.tid = Some (Ticket (JStr "bob") "redeemed")
  /\ Blockchain.tickets
       (snd (issue_ticket (JStr "show") (JStr "eve") (JInt 5) JNull JNull
                          Demo.tid Demo.t4 Demo.s3)) !! Demo.tid
     = Some (Ticket (JStr "eve") "valid").
Proof. split; vm_compute; reflexivity. Qed.

(** ** Claims on the history of a ticket *)

Section History.

Implicit Types (s : Blockchain.t) (ticket_id : string).

Lemma history_of_block_filter ticket_id block :
  history_of_block ticket_id block
  = map (fun t => JDict (Transaction.to_dict t))
        (List.filter (mentions ticket_id) (Block.transactions block)).
Proof. reflexivity. Qed.

(** Transactions that name registered tickets do not mention one that the
    registry does not have. *)
Lemma filter_unregistered reg ticket_id txs :
  reg !! ticket_id = None ->
  Forall (names_ticket reg) txs ->
  List.filter (mentions ticket_id) txs = [].
Proof.
  intros Hfresh. induction 1 as [|t txs (id & Hget & Hsome) _ IH]; [done |].
  simpl. rewrite IH. unfold mentions. rewrite Hget. simpl.
  destruct (String.eqb_spec id ticket_id) as [-> | _]; [| done].
  rewrite Hfresh in Hsome. by destruct Hsome.
Qed.

Lemma history_unregistered reg ticket_id chain :
  reg !! ticket_id = None ->
  Forall (fun block => Forall (names_ticket reg) (Block.transactions block)) chain ->
  flat_map (history_of_block ticket_id) chain = [].
Proof.
  intros Hfresh. induction 1 as [|block chain Hblock _ IH]; [done |].
  simpl. rewrite IH, history_of_block_filter.
  by rewrite (filter_unregistered _ _ _ Hfresh Hblock).
Qed.

End History.

(** C7, as the code has it. After issue, transfer and redeem of a ticket
    whose identifier is new, with no [/mine] request, the history of the
    ticket is empty: the three transactions are pending and [ticket_history]
    reads mined blocks only. Once a following [/mine] request has returned,
    the history is exactly the three transactions, in the order issue,
    transfer, redeem. *)
Theorem ticket_history_after_mining
    s ticket_id event owner price new_owner pk1 sg1 pk2 sg2 pk3 sg3 now1 now2 now3 :
  reachable s ->
  Blockchain.tickets s !! ticket_id = None ->
  let s1 := snd (issue_ticket event owner price pk1 sg1 ticket_id now1 s) in
  let s2 := snd (transfer_ticket ticket_id new_owner pk2 sg2 now2 s1) in
  let s3 := snd (redeem_ticket ticket_id pk3 sg3 now3 s2) in
  let tx_issue :=
    Transaction.init "issue"
      [ ("ticket_id", JStr ticket_id); ("event", event);
        ("owner", owner); ("price", price) ] pk1 sg1 now1 in
  let tx_transfer :=
    Transaction.init "transfer"
      [ ("ticket_id", JStr ticket_id); ("new_owner", new_owner) ] pk2 sg2 now2 in
  let tx_redeem :=
    Transaction.init "redeem" [ ("ticket_id", JStr ticket_id) ] pk3 sg3 now3 in
  ticket_history ticket_id s3 = (JList [], 200%Z)
  /\ forall fuel now resp s4,
       mine fuel now s3 = Returned (resp, s4) ->
       ticket_history ticket_id s4
       = (JList [ JDict (Transaction.to_dict tx_issue);
                  JDict (Transaction.to_dict tx_transfer);
                  JDict (Transaction.to_dict tx_redeem) ], 200%Z).
Proof.
  intros Hreach Hfresh s1 s2 s3 tx_issue tx_transfer tx_redeem.
  destruct (reachable_names_tickets s Hreach) as [Hpending Hchain].
  assert (Hs1 : s1 = Blockchain.Build (Blockchain.chain s)
                       (Blockchain.pending_transactions s ++ [tx_issue])%list
                       (<[ticket_id := Ticket owner "valid"]> (Blockchain.tickets s)))
    by reflexivity.
  assert (Hs2 : s2 = Blockchain.Build (Blockchain.chain s)
                       ((Blockchain.pending_transactions s ++ [tx_issue])
                        ++ [tx_transfer])%list
                       (<[ticket_id := Ticket new_owner "valid"]>
                          (Blockchain.tickets s1))).
  { unfold s2.
    rewrite (transfer_ticket_accepts s1 _ _ _ _ _ (Ticket owner "valid"));
      [by rewrite Hs1 | | done].
    rewrite Hs1. apply lookup_insert_eq. }
  assert (Hs3 : s3 = Blockchain.Build (Blockchain.chain s)
                       (((Blockchain.pending_transactions s ++ [tx_issue])
                         ++ [tx_transfer]) ++ [tx_redeem])%list
                       (<[ticket_id := Ticket new_owner "redeemed"]>
                          (Blockchain.tickets s2))).
  { unfold s3.
    rewrite (redeem_ticket_accepts s2 _ _ _ _ (Ticket new_owner "valid"));
      [by rewrite Hs2 | | done].
    rewrite Hs2. apply lookup_insert_eq. }
  assert (Hmine : forall t, In t [tx_issue; tx_transfer; tx_redeem] ->
                            mentions ticket_id t = true).
  { intros t [<- | [<- | [<- | []]]]; unfold mentions; simpl;
      apply String.eqb_refl. }
  split.
  - unfold ticket_history. rewrite Hs3. simpl.
    by rewrite (history_unregistered _ _ _ Hfresh Hchain).
  - intros fuel now resp s4 Hrun.
    apply route_mine_returned in Hrun
      as [[Hnil _] | (_ & block & Htxs & ->)].
    { rewrite Hs3 in Hnil. simpl in Hnil. by apply app_eq_nil in Hnil as [_ [=]]. }
    unfold ticket_history. simpl. rewrite flat_map_app. simpl.
    rewrite Hs3 at 1. simpl.
    rewrite (history_unregistered _ _ _ Hfresh Hchain).
    rewrite history_of_block_filter, Htxs, Hs3. simpl.
    rewrite <- !app_assoc, List.filter_app.
    rewrite (filter_unregistered _ _ _ Hfresh Hpending). simpl.
    rewrite !Hmine by (simpl; auto). reflexivity.
Qed.

Lemma ticket_history_after_mining_witness :
  ticket_history Demo.tid Demo.s3 = (JList [], 200%Z)
  /\ forall fuel now resp s4,
       mine fuel now Demo.s3 = Returned (resp, s4) ->
       ticket_history Demo.tid s4
       = (JList [ JDict (Transaction.to_dict Demo.tx_issue);
                  JDict (Transaction.to_dict Demo.tx_transfer);
                  JDict (Transaction.to_dict Demo.tx_redeem) ], 200%Z).
Proof.
  apply (ticket_history_after_mining Demo.s0 Demo.tid
           (JStr "concert") (JStr "alice") (JInt 10) (JStr "bob")
           JNull JNull JNull JNull JNull JNull Demo.t1 Demo.t2 Demo.t3).
  - apply reachable_init.
  - reflexivity.
Defined.

(** C7, as the claim has it, fails on a fresh chain: after
    issue("concert","alice",10), transfer to bob and redeem, with no
    [/mine] request, the history of the ticket is the empty list, not three
    transactions. *)
Lemma ticket_history_unmined_is_empty :
  ticket_history Demo.tid Demo.s3 = (JList [], 200%Z)
  /\ Blockchain.pending_transactions Demo.s3
     = [Demo.tx_issue; Demo.tx_transfer; Demo.tx_redeem]
  /\ ~ (exists t1 t2 t3,
          fst (ticket_history Demo.tid Demo.s3) = JList [t1; t2; t3]).
Proof.
  assert (H : ticket_history Demo.tid Demo.s3 = (JList [], 200%Z))
    by (vm_compute; reflexivity).
  split; [exact H |]. split; [vm_compute; reflexivity |].
  rewrite H. intros (t1 & t2 & t3 & Heq). discriminate Heq.
Qed.

(** ** Claim on the hash of a transaction *)

(** C8. The hash of a transaction is a function of its five fields: equal
    fields give equal hashes, so two calls on one instance agree. It is 64
    lowercase hex digits. And hashing the record that [to_dict()] produces,
    whatever the order its keys come in, gives that same hash. *)
Theorem transaction_hash_deterministic :
  (forall t1 t2,
     Transaction.tx_type t1 = Transaction.tx_type t2 ->
     Transaction.data t1 = Transaction.data t2 ->
     Transaction.sender_pubkey t1 = Transaction.sender_pubkey t2 ->
     Transaction.signature t1 = Transaction.signature t2 ->
     Transaction.timestamp t1 = Transaction.timestamp t2 ->
     Transaction.compute_hash t1 = Transaction.compute_hash t2)
  /\ (forall t,
        String.length (Transaction.compute_hash t) = 64%nat
        /\ Forall lower_hex (list_ascii_of_string (Transaction.compute_hash t)))
  /\ (forall t,
        SHA256.hexdigest (Json.dumps (JDict (Transaction.to_dict t)))
        = Transaction.compute_hash t)
  /\ (forall t record,
        Permutation record (Transaction.to_dict t) ->
        SHA256.hexdigest (Json.dumps (JDict record)) = Transaction.compute_hash t).
Proof.
  split; [| split; [| split]].
  - intros [ty1 d1 pk1 sg1 ts1] [ty2 d2 pk2 sg2 ts2]; simpl.
    by intros -> -> -> -> ->.
  - intros t. split; [apply hexdigest_length | apply hexdigest_lower].
  - intros t. by apply hash_of_record.
  - apply hash_of_record.
Qed.

Lemma transaction_hash_deterministic_witness :
  Transaction.compute_hash Demo.tx_issue
  = Transaction.compute_hash
      (Transaction.init "issue"
         [ ("ticket_id", JStr Demo.tid); ("event", JStr "concert");
           ("owner", JStr "alice"); ("price", JInt 10) ]
         JNull JNull Demo.t1)
  /\ SHA256.hexdigest
       (Json.dumps
          (JDict [ ("timestamp", JFloat Demo.t1);
                   ("signature", JNull);
                   ("sender_pubkey", JNull);
                   ("data", JDict (Transaction.data Demo.tx_issue));
                   ("tx_type", JStr "issue") ]))
     = Transaction.compute_hash Demo.tx_issue.
Proof.
  split.
  - apply (proj1 transaction_hash_deterministic); reflexivity.
  - apply (proj2 (proj2 (proj2 transaction_hash_deterministic)) Demo.tx_issue).
    symmetry. apply (Permutation_rev (Transaction.to_dict Demo.tx_issue)).
Defined.

Example demo_tx_issue_hash :
  Transaction.compute_hash Demo.tx_issue
  = "50b8250728d15e408e54beaa3a6460f7d4f19a50cf00a47cd0c6f658bd644544".
Proof. vm_compute. reflexivity. Qed.

(** * Further properties of the code *)

(** ** Each request, in full *)

Section StepDetail.

Implicit Types (s : Blockchain.t) (ticket_id : string).

(** What a returning [/mine] request with something pending has done. *)
Lemma route_mine_block fuel now s resp s' :
  mine fuel now s = Returned (resp, s') ->
  Blockchain.pending_transactions s <> [] ->
  exists tip block,
    last (Blockchain.chain s) = Some tip
    /\ Block.index block = Z.of_nat (length (Blockchain.chain s))
    /\ Block.transactions block = Blockchain.pending_transactions s
    /\ Block.prev_hash block = Block.compute_hash tip
    /\ Block.hash block = Some (Block.compute_hash block)
    /\ sealed block = true
    /\ resp = (JDict [ ("index", JInt (Block.index block));
                       ("transactions", block_transactions block);
                       ("hash", JStr (Block.compute_hash block)) ], 200%Z)
    /\ s' = Blockchain.Build (Blockchain.chain s ++ [block])%list []
              (Blockchain.tickets s).
Proof.
  unfold mine. intros Hmine Hpending.
  destruct (Blockchain.mine fuel now s) as [[m s2] | e |] eqn:Hrun;
    try discriminate.
  apply mine_returned in Hrun
    as [(Hnil & _) | (_ & tip & proof & block' & Htip & Hpow & -> & ->)];
    [done |].
  apply proof_of_work_sound in Hpow as (Hsealed & Hproof & Hblock & _).
  cbn [Block.hash Block.set_hash] in Hmine. injection Hmine as Hresp Hs'.
  subst resp s'.
  assert (Hhash : Block.compute_hash (Block.set_hash proof block') = proof)
    by (symmetry; exact Hproof).
  exists tip, (Block.set_hash proof block').
  split; [done |].
  split; [by rewrite Hblock |].
  split; [by rewrite Hblock |].
  split; [by rewrite Hblock |].
  split; [cbn [Block.hash Block.set_hash]; by rewrite Hhash |].
  split; [exact Hsealed |].
  split; [by rewrite Hhash | done].
Qed.

(** The five things a step can be. *)
Lemma step_detail s s' :
  step s s' ->
  s' = s
  \/ (exists event owner price pk sg ticket_id now,
        Blockchain.tickets s !! ticket_id = None
        /\ s' = Blockchain.Build (Blockchain.chain s)
                  (Blockchain.pending_transactions s
                   ++ [Transaction.Build "issue"
                         [ ("ticket_id", JStr ticket_id); ("event", event);
                           ("owner", owner); ("price", price) ] pk sg now])%list
                  (<[ticket_id := Ticket owner "valid"]> (Blockchain.tickets s)))
  \/ (exists ticket_id new_owner pk sg now entry,
        Blockchain.tickets s !! ticket_id = Some entry
        /\ status entry = "valid"
        /\ s' = Blockchain.Build (Blockchain.chain s)
                  (Blockchain.pending_transactions s
                   ++ [Transaction.Build "transfer"
                         [ ("ticket_id", JStr ticket_id); ("new_owner", new_owner) ]
                         pk sg now])%list
                  (<[ticket_id := Ticket new_owner "valid"]> (Blockchain.tickets s)))
  \/ (exists ticket_id pk sg now entry,
        Blockchain.tickets s !! ticket_id = Some entry
        /\ status entry = "valid"
        /\ s' = Blockchain.Build (Blockchain.chain s)
                  (Blockchain.pending_transactions s
                   ++ [Transaction.Build "redeem" [ ("ticket_id", JStr ticket_id) ]
                         pk sg now])%list
                  (<[ticket_id := Ticket (owner entry) "redeemed"]>
                     (Blockchain.tickets s)))
  \/ (Blockchain.pending_transactions s <> []
      /\ exists tip block,
           last (Blockchain.chain s) = Some tip
           /\ Block.index block = Z.of_nat (length (Blockchain.chain s))
           /\ Block.transactions block = Blockchain.pending_transactions s
           /\ Block.prev_hash block = Block.compute_hash tip
           /\ Block.hash block = Some (Block.compute_hash block)
           /\ sealed block = true
           /\ s' = Blockchain.Build (Blockchain.chain s ++ [block])%list []
                     (Blockchain.tickets s)).
Proof.
  intros [event owner price pk sg ticket_id now s0 Hfresh
         | ticket_id new_owner pk sg now s0
         | ticket_id pk sg now s0
         | fuel now s0 r s1 Hmine].
  - right; left. by exists event, owner, price, pk, sg, ticket_id, now.
  - destruct (guard_cases s0 ticket_id) as [Hbad | (entry & Hentry & Hstatus)].
    + left. by rewrite (transfer_ticket_rejects _ _ _ _ _ _ Hbad).
    + rewrite (transfer_ticket_accepts _ _ _ _ _ _ _ Hentry Hstatus).
      right; right; left. by exists ticket_id, new_owner, pk, sg, now, entry.
  - destruct (guard_cases s0 ticket_id) as [Hbad | (entry & Hentry & Hstatus)].
    + left. by rewrite (redeem_ticket_rejects _ _ _ _ _ Hbad).
    + rewrite (redeem_ticket_accepts _ _ _ _ _ _ Hentry Hstatus).
      right; right; right; left. by exists ticket_id, pk, sg, now, entry.
  - destruct (route_mine_returned _ _ _ _ _ Hmine) as [[_ ->] | [Hpending _]];
      [by left |].
    destruct (route_mine_block _ _ _ _ _ Hmine Hpending)
      as (tip & block & Htip & Hindex & Htxs & Hprev & Hhash & Hsealed & _ & ->).
    right; right; right; right. split; [exact Hpending |].
    by exists tip, block.
Qed.

End StepDetail.

(** ** The chain of a reachable state is a valid chain *)

(** Index, stored hash and linkage of every block of a reachable chain. *)
Lemma reachable_chain_links s :
  reachable s ->
  (forall i block,
     Blockchain.chain s !! i = Some block ->
     Block.index block = Z.of_nat i
     /\ Block.hash block = Some (Block.compute_hash block))
  /\ (forall i prev block,
        Blockchain.chain s !! i = Some prev ->
        Blockchain.chain s !! S i = Some block ->
        Block.prev_hash block = Block.compute_hash prev
        /\ Block.hash prev = Some (Block.prev_hash block)
        /\ sealed block = true).
Proof.
  induction 1 as [now | s s' _ [IHown IHlink] Hstep].
  - split.
    + intros [|i] block; [| done]. intros [= <-]. by split.
    + intros [|i] prev block; [| done]. done.
  - apply step_detail in Hstep
      as [-> | [(ev & ow & pr & pk & sg & id & now & _ & ->)
         | [(id & ow & pk & sg & now & en & _ & _ & ->)
         | [(id & pk & sg & now & en & _ & _ & ->)
         | (_ & tip & new & Htip & Hindex & _ & Hprev & Hhash & Hsealed & ->)]]]];
      try (by split).
    cbn [Blockchain.chain]. rewrite last_lookup in Htip.
    assert (Hown' : forall i block,
              (Blockchain.chain s ++ [new])%list !! i = Some block ->
              Block.index block = Z.of_nat i
              /\ Block.hash block = Some (Block.compute_hash block)).
    { intros i block [Hold | [Hlen Hnew]]%lookup_app_Some; [by apply IHown |].
      destruct (i - length (Blockchain.chain s))%nat as [|k] eqn:Hk; [| done].
      injection Hnew as <-. split; [| exact Hhash].
      rewrite Hindex. f_equal. lia. }
    split; [exact Hown' |].
    intros i prev block Hprev_at Hblock_at.
    apply lookup_app_Some in Hblock_at as [Hold | [Hlen Hnew]].
    + assert (Hprev_old : Blockchain.chain s !! i = Some prev).
      { apply lookup_lt_Some in Hold.
        by rewrite lookup_app_l in Hprev_at by lia. }
      by apply (IHlink i).
    + destruct (S i - length (Blockchain.chain s))%nat as [|k] eqn:Hk; [| done].
      injection Hnew as <-.
      assert (Hi : i = pred (length (Blockchain.chain s))) by lia.
      rewrite lookup_app_l in Hprev_at by lia.
      rewrite Hi, Htip in Hprev_at. injection Hprev_at as <-.
      split; [exact Hprev |]. split; [| exact Hsealed].
      rewrite Hprev. apply (IHown (pred (length (Blockchain.chain s)))).
      exact Htip.
Qed.

(** X1. In every reachable state each block sits at its own index and its
    stored hash is its live [compute_hash()]; each block after the first
    links to the hash of the block before it, passes the difficulty test,
    and so has a stored hash that begins with two zero digits. The source
    has no function that checks this; its operations keep it. *)
Theorem reachable_chain_is_valid s :
  reachable s ->
  (forall i block,
     Blockchain.chain s !! i = Some block ->
     Block.index block = Z.of_nat i
     /\ Block.hash block = Some (Block.compute_hash block))
  /\ (forall i prev block,
        Blockchain.chain s !! i = Some prev ->
        Blockchain.chain s !! S i = Some block ->
        Block.prev_hash block = Block.compute_hash prev
        /\ Block.hash prev = Some (Block.prev_hash block)
        /\ sealed block = true
        /\ exists rest, Block.hash block = Some (String "0" (String "0" rest))).
Proof.
  intros Hreach.
  destruct (reachable_chain_links s Hreach) as [Hown Hlink].
  split; [exact Hown |].
  intros i prev block Hprev Hblock.
  destruct (Hlink i prev block Hprev Hblock) as (Hprev_hash & Hstored & Hsealed).
  destruct (Hown (S i) block Hblock) as [_ Hhash].
  destruct (startswith_zeros _ Hsealed) as [rest Hrest].
  repeat split; try done.
  exists rest. by rewrite Hhash, Hrest.
Qed.

Lemma reachable_chain_is_valid_witness :
  (forall i block,
     Blockchain.chain Demo.s4 !! i = Some block ->
     Block.index block = Z.of_nat i
     /\ Block.hash block = Some (Block.compute_hash block))
  /\ (forall i prev block,
        Blockchain.chain Demo.s4 !! i = Some prev ->
        Blockchain.chain Demo.s4 !! S i = Some block ->
        Block.prev_hash block = Block.compute_hash prev
        /\ Block.hash prev = Some (Block.prev_hash block)
        /\ sealed block = true
        /\ exists rest, Block.hash block = Some (String "0" (String "0" rest))).
Proof.
  apply (reachable_chain_is_valid Demo.s4).
  eapply reachable_step; [| eapply step_mine; exact demo_route_mine].
  eapply reachable_step; [| apply step_redeem].
  eapply reachable_step; [| apply step_transfer].
  eapply reachable_step; [apply reachable_init | apply step_issue].
  reflexivity.
Defined.

(** ** What the read and mine routes answer in a reachable state *)

Lemma lookup_map {A B : Type} (f : A -> B) (l : list A) i :
  map f l !! i = option_map f (l !! i).
Proof.
  revert i. induction l as [|x l IH]; intros [|i]; simpl; auto.
Qed.

(** X2. In a reachable state [get_chain] answers 200 with one record per
    block, in chain order; the record of block [i] carries index [i] and,
    as its hash, the hash stored in the block, which is also the
    [prev_hash] of the record after it. *)
Theorem get_chain_reports_stored_hashes s :
  reachable s ->
  exists records,
    get_chain s = (JList records, 200%Z)
    /\ length records = length (Blockchain.chain s)
    /\ (forall i block,
          Blockchain.chain s !! i = Some block ->
          exists h,
            Block.hash block = Some h
            /\ records !! i
               = Some (JDict [ ("index", JInt (Z.of_nat i));
                               ("transactions", block_transactions block);
                               ("timestamp", JFloat (Block.timestamp block));
                               ("prev_hash", JStr (Block.prev_hash block));
                               ("hash", JStr h) ])
            /\ forall next,
                 Blockchain.chain s !! S i = Some next ->
                 Block.prev_hash next = h).
Proof.
  intros Hreach.
  destruct (reachable_chain_links s Hreach) as [Hown Hlink].
  eexists. split; [reflexivity |]. split; [apply length_map |].
  intros i block Hblock.
  destruct (Hown i block Hblock) as [Hindex Hhash].
  exists (Block.compute_hash block). split; [exact Hhash |]. split.
  - rewrite lookup_map, Hblock. simpl. by rewrite Hindex.
  - intros next Hnext. by destruct (Hlink i block next Hblock Hnext) as [-> _].
Qed.

Lemma get_chain_reports_stored_hashes_witness :
  exists records,
    get_chain Demo.s4 = (JList records, 200%Z)
    /\ length records = length (Blockchain.chain Demo.s4)
    /\ (forall i block,
          Blockchain.chain Demo.s4 !! i = Some block ->
          exists h,
            Block.hash block = Some h
            /\ records !! i
               = Some (JDict [ ("index", JInt (Z.of_nat i));
                               ("transactions", block_transactions block);
                               ("timestamp", JFloat (Block.timestamp block));
                               ("prev_hash", JStr (Block.prev_hash block));
                               ("hash", JStr h) ])
            /\ forall next,
                 Blockchain.chain Demo.s4 !! S i = Some next ->
                 Block.prev_hash next = h).
Proof.
  apply (get_chain_reports_stored_hashes Demo.s4).
  eapply reachable_step; [| eapply step_mine; exact demo_route_mine].
  eapply reachable_step; [| apply step_redeem].
  eapply reachable_step; [| apply step_transfer].
  eapply reachable_step; [apply reachable_init | apply step_issue].
  reflexivity.
Defined.

(** X3. In a reachable state a [/mine] request never raises: the chain has
    a tip to link to and the block it returns has its hash set. When it
    returns with transactions pending, the answer is 200 with the index of
    the new block (the former chain length), the records of the pending
    transactions in order, and a hash that begins with two zero digits. *)
Theorem route_mine_never_raises s :
  reachable s ->
  (forall fuel now e, mine fuel now s <> Raised e)
  /\ (forall fuel now resp s',
        Blockchain.pending_transactions s <> [] ->
        mine fuel now s = Returned (resp, s') ->
        exists rest,
          resp
          = (JDict
               [ ("index", JInt (Z.of_nat (length (Blockchain.chain s))));
                 ("transactions",
                  JList (map (fun t => JDict (Transaction.to_dict t))
                             (Blockchain.pending_transactions s)));
                 ("hash", JStr (String "0" (String "0" rest))) ], 200%Z)).
Proof.
  intros Hreach. split.
  - intros fuel now e.
    destruct (reachable_chain s Hreach) as (genesis & rest & Hchain & _).
    unfold mine, Blockchain.mine.
    destruct (Blockchain.pending_transactions s) as [|t txs]; [done |].
    rewrite Hchain.
    destruct (last (genesis :: rest)) as [tip|] eqn:Htip.
    + destruct (Blockchain.proof_of_work _ _) as [[proof block]|]; done.
    + by apply last_None in Htip.
  - intros fuel now resp s' Hpending Hmine.
    destruct (route_mine_block _ _ _ _ _ Hmine Hpending)
      as (tip & block & _ & Hindex & Htxs & _ & _ & Hsealed & -> & _).
    destruct (startswith_zeros _ Hsealed) as [rest Hrest].
    exists rest. unfold block_transactions. by rewrite Hindex, Htxs, Hrest.
Qed.

Lemma route_mine_never_raises_witness :
  (forall fuel now e, mine fuel now Demo.s3 <> Raised e)
  /\ (forall fuel now resp s',
        Blockchain.pending_transactions Demo.s3 <> [] ->
        mine fuel now Demo.s3 = Returned (resp, s') ->
        exists rest,
          resp
          = (JDict
               [ ("index", JInt (Z.of_nat (length (Blockchain.chain Demo.s3))));
                 ("transactions",
                  JList (map (fun t => JDict (Transaction.to_dict t))
                             (Blockchain.pending_transactions Demo.s3)));
                 ("hash", JStr (String "0" (String "0" rest))) ], 200%Z)).
Proof.
  apply (route_mine_never_raises Demo.s3).
  eapply reachable_step; [| apply step_redeem].
  eapply reachable_step; [| apply step_transfer].
  eapply reachable_step; [apply reachable_init | apply step_issue].
  reflexivity.
Defined.

(** ** The registry follows the requests *)

(** X4. The life cycle as [verify] shows it. For a ticket identifier that is
    not registered, [verify] answers 404; after [issue_ticket] it answers
    valid with the first owner, after [transfer_ticket] valid with the new
    owner, after [redeem_ticket] not valid, status ["redeemed"], still with
    the new owner. Each change shows at once, before any block is mined,
    and the answers for other identifiers do not change. *)
Theorem verify_follows_lifecycle
    s ticket_id event owner price new_owner pk1 sg1 pk2 sg2 pk3 sg3 now1 now2 now3 :
  Blockchain.tickets s !! ticket_id = None ->
  let s1 := snd (issue_ticket event owner price pk1 sg1 ticket_id now1 s) in
  let s2 := snd (transfer_ticket ticket_id new_owner pk2 sg2 now2 s1) in
  let s3 := snd (redeem_ticket ticket_id pk3 sg3 now3 s2) in
  verify ticket_id s
  = (JDict [("valid", JBool false); ("message", JStr "Ticket not found")], 404%Z)
  /\ verify ticket_id s1
     = (JDict [ ("valid", JBool true);
                ("ticket", JDict [("owner", owner); ("status", JStr "valid")]) ],
        200%Z)
  /\ verify ticket_id s2
     = (JDict [ ("valid", JBool true);
                ("ticket", JDict [("owner", new_owner); ("status", JStr "valid")]) ],
        200%Z)
  /\ verify ticket_id s3
     = (JDict [ ("valid", JBool false);
                ("ticket", JDict [("owner", new_owner); ("status", JStr "redeemed")]) ],
        200%Z)
  /\ Blockchain.chain s3 = Blockchain.chain s
  /\ forall other, other <> ticket_id -> verify other s3 = verify other s.
Proof.
  intros Hfresh s1 s2 s3.
  assert (Hs1 : Blockchain.tickets s1
                = <[ticket_id := Ticket owner "valid"]> (Blockchain.tickets s))
    by reflexivity.
  assert (Hc1 : Blockchain.chain s1 = Blockchain.chain s) by reflexivity.
  assert (Hs2 : Blockchain.tickets s2
                = <[ticket_id := Ticket new_owner "valid"]> (Blockchain.tickets s1)
                /\ Blockchain.chain s2 = Blockchain.chain s1).
  { unfold s2.
    rewrite (transfer_ticket_accepts s1 _ _ _ _ _ (Ticket owner "valid"));
      [done | | done].
    rewrite Hs1. apply lookup_insert_eq. }
  destruct Hs2 as [Hs2 Hc2].
  assert (Hs3 : Blockchain.tickets s3
                = <[ticket_id := Ticket new_owner "redeemed"]> (Blockchain.tickets s2)
                /\ Blockchain.chain s3 = Blockchain.chain s2).
  { unfold s3.
    rewrite (redeem_ticket_accepts s2 _ _ _ _ (Ticket new_owner "valid"));
      [done | | done].
    rewrite Hs2. apply lookup_insert_eq. }
  destruct Hs3 as [Hs3 Hc3].
  unfold verify, Blockchain.verify_ticket.
  split; [by rewrite Hfresh |].
  split; [by rewrite Hs1, lookup_insert_eq |].
  split; [by rewrite Hs2, lookup_insert_eq |].
  split; [by rewrite Hs3, lookup_insert_eq |].
  split; [congruence |].
  intros other Hother.
  by rewrite Hs3, Hs2, Hs1, !lookup_insert_ne.
Qed.

Lemma verify_follows_lifecycle_witness :
  verify Demo.tid Demo.s0
  = (JDict [("valid", JBool false); ("message", JStr "Ticket not found")], 404%Z)
  /\ verify Demo.tid Demo.s1
     = (JDict [ ("valid", JBool true);
                ("ticket", JDict [("owner", JStr "alice"); ("status", JStr "valid")]) ],
        200%Z)
  /\ verify Demo.tid Demo.s2
     = (JDict [ ("valid", JBool true);
                ("ticket", JDict [("owner", JStr "bob"); ("status", JStr "valid")]) ],
        200%Z)
  /\ verify Demo.tid Demo.s3
     = (JDict [ ("valid", JBool false);
                ("ticket", JDict [("owner", JStr "bob"); ("status", JStr "redeemed")]) ],
        200%Z)
  /\ Blockchain.chain Demo.s3 = Blockchain.chain Demo.s0
  /\ forall other, other <> Demo.tid -> verify other Demo.s3 = verify other Demo.s0.
Proof.
  apply (verify_follows_lifecycle Demo.s0 Demo.tid
           (JStr "concert") (JStr "alice") (JInt 10) (JStr "bob")
           JNull JNull JNull JNull JNull JNull Demo.t1 Demo.t2 Demo.t3).
  reflexivity.
Defined.

(** ** The ledger and the registry tell the same story *)

Section Ledger.

Implicit Types (s : Blockchain.t) (ticket_id : string) (reg : gmap string ticket).

Lemma ledger_posted s tx reg :
  ledger (Blockchain.Build (Blockchain.chain s)
            (Blockchain.pending_transactions s ++ [tx])%list reg)
  = (ledger s ++ [tx])%list.
Proof. unfold ledger. simpl. by rewrite app_assoc. Qed.

Lemma ledger_mined s block reg :
  Block.transactions block = Blockchain.pending_transactions s ->
  ledger (Blockchain.Build (Blockchain.chain s ++ [block])%list [] reg)
  = ledger s.
Proof.
  intros Htxs. unfold ledger. simpl.
  by rewrite flat_map_app, app_nil_r, <- Htxs; simpl; rewrite app_nil_r.
Qed.

Lemma kinds_of_posted s tx reg ticket_id :
  kinds_of ticket_id
    (Blockchain.Build (Blockchain.chain s)
       (Blockchain.pending_transactions s ++ [tx])%list reg)
  = (kinds_of ticket_id s
     ++ (if mentions ticket_id tx then [Transaction.tx_type tx] else []))%list.
Proof.
  unfold kinds_of. rewrite ledger_posted, List.filter_app, map_app. simpl.
  by destruct (mentions ticket_id tx).
Qed.

Lemma kinds_of_mined s block reg ticket_id :
  Block.transactions block = Blockchain.pending_transactions s ->
  kinds_of ticket_id
    (Blockchain.Build (Blockchain.chain s ++ [block])%list [] reg)
  = kinds_of ticket_id s.
Proof. intros Htxs. unfold kinds_of. by rewrite ledger_mined. Qed.

(** A transaction posted for [id] mentions [ticket_id] when they are the
    same string. *)
Lemma mentions_posted ticket_id ty id rest pk sg now :
  mentions ticket_id
    (Transaction.Build ty (("ticket_id", JStr id) :: rest) pk sg now)
  = String.eqb id ticket_id.
Proof. reflexivity. Qed.

(** Posting for another ticket changes neither the entry nor the kinds. *)
Lemma ticket_shape_other s ticket_id id entry' ty rest pk sg now :
  id <> ticket_id ->
  ticket_shape (Blockchain.tickets s !! ticket_id) (kinds_of ticket_id s) ->
  ticket_shape
    (<[id := entry']> (Blockchain.tickets s) !! ticket_id)
    (kinds_of ticket_id
       (Blockchain.Build (Blockchain.chain s)
          (Blockchain.pending_transactions s
           ++ [Transaction.Build ty (("ticket_id", JStr id) :: rest) pk sg now])%list
          (<[id := entry']> (Blockchain.tickets s)))).
Proof.
  intros Hne Hshape.
  rewrite lookup_insert_ne by done.
  rewrite kinds_of_posted, mentions_posted.
  apply String.eqb_neq in Hne. rewrite Hne. by rewrite app_nil_r.
Qed.

Lemma repeat_snoc {A : Type} (x : A) n : (repeat x n ++ [x])%list = repeat x (S n).
Proof. induction n as [|n IH]; simpl; [done |]. by rewrite IH. Qed.

Lemma reachable_ticket_shape s :
  reachable s ->
  forall ticket_id,
    ticket_shape (Blockchain.tickets s !! ticket_id) (kinds_of ticket_id s).
Proof.
  induction 1 as [now | s s' _ IH Hstep]; intros ticket_id.
  - left. by split.
  - specialize (IH ticket_id).
    apply step_detail in Hstep
      as [-> | [(ev & ow & pr & pk & sg & id & now & Hfresh & ->)
         | [(id & ow & pk & sg & now & en & Hentry & Hvalid & ->)
         | [(id & pk & sg & now & en & Hentry & Hvalid & ->)
         | (_ & tip & new & _ & _ & Htxs & _ & _ & _ & ->)]]]].
    + exact IH.
    + destruct (decide (id = ticket_id)) as [-> | Hne];
        [| by apply ticket_shape_other].
      cbn [Blockchain.tickets]. rewrite lookup_insert_eq.
      rewrite kinds_of_posted, mentions_posted, String.eqb_refl.
      destruct IH as [[_ ->] | [(e & n & He & _) | (e & n & He & _)]];
        [| congruence | congruence].
      right; left. by exists (Ticket ow "valid"), 0%nat.
    + destruct (decide (id = ticket_id)) as [-> | Hne];
        [| by apply ticket_shape_other].
      cbn [Blockchain.tickets]. rewrite lookup_insert_eq.
      rewrite kinds_of_posted, mentions_posted, String.eqb_refl.
      destruct IH as [[He _] | [(e & n & He & _ & ->) | (e & n & He & Hst & _)]];
        [congruence | | congruence].
      right; left. exists (Ticket ow "valid"), (S n). split; [done |].
      split; [done |]. simpl. by rewrite repeat_snoc.
    + destruct (decide (id = ticket_id)) as [-> | Hne];
        [| by apply ticket_shape_other].
      cbn [Blockchain.tickets]. rewrite lookup_insert_eq.
      rewrite kinds_of_posted, mentions_posted, String.eqb_refl.
      destruct IH as [[He _] | [(e & n & He & _ & ->) | (e & n & He & Hst & _)]];
        [congruence | | congruence].
      right; right. by exists (Ticket (owner en) "redeemed"), n.
    + cbn [Blockchain.tickets]. by rewrite kinds_of_mined.
Qed.

Lemma history_is_filtered_chain ticket_id chain :
  flat_map (history_of_block ticket_id) chain
  = map (fun t => JDict (Transaction.to_dict t))
        (List.filter (mentions ticket_id) (flat_map Block.transactions chain)).
Proof.
  induction chain as [|block chain IH]; [done |].
  simpl. rewrite IH, List.filter_app, map_app. reflexivity.
Qed.

End Ledger.

(** X5. In every reachable state, for every ticket identifier, the
    transactions of the ledger that mention it and its registry entry agree:
    either there is no entry and no transaction; or there is a valid entry
    and the transactions are one issue followed by transfers only; or there
    is a redeemed entry and they are one issue, then transfers, then one
    redeem, which comes last. With nothing pending, these are the
    transactions [ticket_history] lists. *)
Theorem ledger_agrees_with_registry s :
  reachable s ->
  (forall ticket_id,
     ticket_shape (Blockchain.tickets s !! ticket_id) (kinds_of ticket_id s))
  /\ (Blockchain.pending_transactions s = [] ->
      forall ticket_id,
        ticket_history ticket_id s
        = (JList (map (fun t => JDict (Transaction.to_dict t))
                      (List.filter (mentions ticket_id) (ledger s))), 200%Z)).
Proof.
  intros Hreach. split; [by apply reachable_ticket_shape |].
  intros Hpending ticket_id.
  unfold ticket_history, ledger.
  by rewrite Hpending, app_nil_r, history_is_filtered_chain.
Qed.

Lemma ledger_agrees_with_registry_witness :
  (forall ticket_id,
     ticket_shape (Blockchain.tickets Demo.s4 !! ticket_id)
                  (kinds_of ticket_id Demo.s4))
  /\ (Blockchain.pending_transactions Demo.s4 = [] ->
      forall ticket_id,
        ticket_history ticket_id Demo.s4
        = (JList (map (fun t => JDict (Transaction.to_dict t))
                      (List.filter (mentions ticket_id) (ledger Demo.s4))), 200%Z)).
Proof.
  apply (ledger_agrees_with_registry Demo.s4).
  eapply reachable_step; [| eapply step_mine; exact demo_route_mine].
  eapply reachable_step; [| apply step_redeem].
  eapply reachable_step; [| apply step_transfer].
  eapply reachable_step; [apply reachable_init | apply step_issue].
  reflexivity.
Defined.

Example demo_kinds_of :
  kinds_of Demo.tid Demo.s4 = ["issue"; "transfer"; "redeem"]
  /\ kinds_of Demo.tid Demo.s2 = ["issue"; "transfer"]
  /\ kinds_of "tid-2" Demo.s4 = [].
Proof. repeat split; vm_compute; reflexivity. Qed.

(** X6. No transaction is lost, repeated or moved. A [/mine] request that
    returns leaves the ledger (mined transactions, then pending ones) exactly
    as it was, and along any run the ledger only grows at its end. *)
Theorem ledger_is_append_only s :
  (forall fuel now resp s',
     mine fuel now s = Returned (resp, s') -> ledger s' = ledger s)
  /\ (forall s', rtc step s s' ->
                 exists added, ledger s' = (ledger s ++ added)%list).
Proof.
  split.
  - intros fuel now resp s' Hmine.
    apply route_mine_returned in Hmine
      as [[_ ->] | (_ & block & Htxs & ->)]; [done |].
    by apply ledger_mined.
  - intros s' Hrun. induction Hrun as [s | s s1 s2 Hstep _ [added IH]].
    + exists []. by rewrite app_nil_r.
    + rewrite IH.
      apply step_inv in Hstep
        as [-> | [(tx & id & entry' & _ & _ & ->) | (_ & block & Htxs & ->)]].
      * by exists added.
      * rewrite ledger_posted, <- app_assoc. by eexists.
      * rewrite ledger_mined by done. by exists added.
Qed.

Lemma ledger_is_append_only_witness :
  ledger Demo.s4 = ledger Demo.s3
  /\ exists added, ledger Demo.s4 = (ledger Demo.s0 ++ added)%list.
Proof.
  split.
  - eapply (proj1 (ledger_is_append_only Demo.s3) 1%nat Demo.t4).
    exact demo_route_mine.
  - apply (proj2 (ledger_is_append_only Demo.s0) Demo.s4).
    apply (rtc_l _ _ Demo.s1); [apply step_issue; reflexivity |].
    apply (rtc_l _ _ Demo.s2); [apply step_transfer |].
    apply (rtc_l _ _ Demo.s3); [apply step_redeem |].
    eapply rtc_once, step_mine. exact demo_route_mine.
Defined.

(** ** What the requests never do *)

Section Frames.

Implicit Types (s : Blockchain.t) (ticket_id : string).

Lemma transfer_ticket_chain ticket_id new_owner pk sg now s :
  Blockchain.chain (snd (transfer_ticket ticket_id new_owner pk sg now s))
  = Blockchain.chain s.
Proof.
  destruct (guard_cases s ticket_id) as [Hbad | (entry & Hentry & Hstatus)].
  - by rewrite (transfer_ticket_rejects _ _ _ _ _ _ Hbad).
  - by rewrite (transfer_ticket_accepts _ _ _ _ _ _ _ Hentry Hstatus).
Qed.

Lemma redeem_ticket_chain ticket_id pk sg now s :
  Blockchain.chain (snd (redeem_ticket ticket_id pk sg now s))
  = Blockchain.chain s.
Proof.
  destruct (guard_cases s ticket_id) as [Hbad | (entry & Hentry & Hstatus)].
  - by rewrite (redeem_ticket_rejects _ _ _ _ _ Hbad).
  - by rewrite (redeem_ticket_accepts _ _ _ _ _ _ Hentry Hstatus).
Qed.

(** [get_chain] and [ticket_history] read the chain and nothing else. *)
Lemma reads_follow_chain s s' :
  Blockchain.chain s' = Blockchain.chain s ->
  get_chain s' = get_chain s
  /\ forall ticket_id, ticket_history ticket_id s' = ticket_history ticket_id s.
Proof.
  intros Hchain. unfold get_chain, ticket_history. by rewrite Hchain.
Qed.

Lemma rtc_step_chain s s' :
  rtc step s s' ->
  exists added, Blockchain.chain s' = (Blockchain.chain s ++ added)%list.
Proof.
  induction 1 as [s | s s1 s2 Hstep _ [added IH]].
  - exists []. by rewrite app_nil_r.
  - rewrite IH.
    apply step_inv in Hstep
      as [-> | [(tx & id & entry' & _ & _ & ->) | (_ & block & _ & ->)]].
    + by exists added.
    + by exists added.
    + simpl. rewrite <- app_assoc. by eexists.
Qed.

End Frames.

(** X7. Blocks are never changed or removed: along any run the chain only
    grows at its end, so what [ticket_history] listed for a ticket stays
    listed, in place. And [issue_ticket], [transfer_ticket] and
    [redeem_ticket] never touch the chain: after one, [get_chain] and
    [ticket_history] answer what they answered before. *)
Theorem chain_is_append_only s :
  (forall s', rtc step s s' ->
     (exists added, Blockchain.chain s' = (Blockchain.chain s ++ added)%list)
     /\ forall ticket_id,
          exists listed more,
            ticket_history ticket_id s = (JList listed, 200%Z)
            /\ ticket_history ticket_id s' = (JList (listed ++ more), 200%Z))
  /\ (forall event owner price pk sg ticket_id now,
        let s' := snd (issue_ticket event owner price pk sg ticket_id now s) in
        get_chain s' = get_chain s
        /\ forall id, ticket_history id s' = ticket_history id s)
  /\ (forall ticket_id new_owner pk sg now,
        let s' := snd (transfer_ticket ticket_id new_owner pk sg now s) in
        get_chain s' = get_chain s
        /\ forall id, ticket_history id s' = ticket_history id s)
  /\ (forall ticket_id pk sg now,
        let s' := snd (redeem_ticket ticket_id pk sg now s) in
        get_chain s' = get_chain s
        /\ forall id, ticket_history id s' = ticket_history id s).
Proof.
  split; [| split; [| split]].
  - intros s' Hrun. destruct (rtc_step_chain s s' Hrun) as [added Hchain].
    split; [by exists added |].
    intros ticket_id. eexists _, _. split; [reflexivity |].
    unfold ticket_history. by rewrite Hchain, flat_map_app.
  - intros. by apply reads_follow_chain.
  - intros. apply reads_follow_chain, transfer_ticket_chain.
  - intros. apply reads_follow_chain, redeem_ticket_chain.
Qed.

Lemma chain_is_append_only_witness :
  (exists added, Blockchain.chain Demo.s4 = (Blockchain.chain Demo.s1 ++ added)%list)
  /\ forall ticket_id,
       exists listed more,
         ticket_history ticket_id Demo.s1 = (JList listed, 200%Z)
         /\ ticket_history ticket_id Demo.s4 = (JList (listed ++ more), 200%Z).
Proof.
  apply (proj1 (chain_is_append_only Demo.s1) Demo.s4).
  apply (rtc_l _ _ Demo.s2); [apply step_transfer |].
  apply (rtc_l _ _ Demo.s3); [apply step_redeem |].
  eapply rtc_once, step_mine. exact demo_route_mine.
Defined.

(** X8. What one request can do to a registered ticket: leave its entry as
    it is; replace a valid entry by a valid one (a transfer); or turn a valid
    entry into a redeemed one with the same owner (a redeem). An entry is
    never removed, and a redeemed entry keeps its owner. *)
Theorem entry_transitions s s' ticket_id entry :
  step s s' ->
  Blockchain.tickets s !! ticket_id = Some entry ->
  exists entry',
    Blockchain.tickets s' !! ticket_id = Some entry'
    /\ (entry' = entry
        \/ (status entry = "valid" /\ status entry' = "valid")
        \/ (status entry = "valid" /\ status entry' = "redeemed"
            /\ owner entry' = owner entry)).
Proof.
  intros Hstep Hentry.
  apply step_detail in Hstep
    as [-> | [(ev & ow & pr & pk & sg & id & now & Hfresh & ->)
       | [(id & ow & pk & sg & now & en & Hen & Hvalid & ->)
       | [(id & pk & sg & now & en & Hen & Hvalid & ->)
       | (_ & tip & new & _ & _ & _ & _ & _ & _ & ->)]]]];
    cbn [Blockchain.tickets].
  - exists entry. by split; [| left].
  - exists entry. split; [| by left].
    rewrite lookup_insert_ne; [done | congruence].
  - destruct (decide (id = ticket_id)) as [-> | Hne].
    + rewrite lookup_insert_eq. eexists. split; [done |].
      right; left. split; [congruence | done].
    + rewrite lookup_insert_ne by done. exists entry. by split; [| left].
  - destruct (decide (id = ticket_id)) as [-> | Hne].
    + rewrite lookup_insert_eq. eexists. split; [done |].
      right; right. repeat split; [congruence | simpl; congruence].
    + rewrite lookup_insert_ne by done. exists entry. by split; [| left].
  - exists entry. by split; [| left].
Qed.

Lemma entry_transitions_witness :
  exists entry',
    Blockchain.tickets Demo.s3 !! Demo.tid = Some entry'
    /\ (entry' = Ticket (JStr "bob") "valid"
        \/ (status (Ticket (JStr "bob") "valid") = "valid" /\ status entry' = "valid")
        \/ (status (Ticket (JStr "bob") "valid") = "valid"
            /\ status entry' = "redeemed"
            /\ owner entry' = owner (Ticket (JStr "bob") "valid"))).
Proof.
  apply (entry_transitions Demo.s2 Demo.s3 Demo.tid (Ticket (JStr "bob") "valid")).
  - apply step_redeem.
  - vm_compute. reflexivity.
Defined.


(** ** The nonce that mining finds *)

(** X10. [proof_of_work] starts from nonce 0 whatever nonce the block came
    with, and what it returns is the first nonce from there whose hash
    passes the difficulty test: no smaller one does. The result is therefore
    the same however long the search is allowed to run. *)
Theorem proof_of_work_finds_least_nonce fuel block proof block' :
  Blockchain.proof_of_work fuel block = Some (proof, block') ->
  (0 <= Block.nonce block')%Z
  /\ sealed (Block.set_nonce (Block.nonce block') block) = true
  /\ (forall n, (0 <= n < Block.nonce block')%Z ->
                sealed (Block.set_nonce n block) = false)
  /\ (forall fuel' r, Blockchain.proof_of_work fuel' block = Some r ->
                      r = (proof, block'))
  /\ (forall n0, Blockchain.proof_of_work fuel (Block.set_nonce n0 block)
                 = Some (proof, block')).
Proof.
  intros Hpow.
  destruct (proof_of_work_sound _ _ _ _ Hpow) as (Hsealed & _ & Hblock & Hpos).
  split; [exact Hpos |]. split; [by rewrite <- Hblock |]. split; [| split].
  - intros n Hn. unfold Blockchain.proof_of_work in Hpow.
    rewrite <- (set_nonce_twice n 0 block).
    eapply proof_of_work_loop_least; [exact Hpow | exact Hn].
  - intros fuel' r Hr. unfold Blockchain.proof_of_work in *.
    destruct (Nat.le_ge_cases fuel fuel') as [Hle | Hle].
    + rewrite (proof_of_work_loop_mono _ _ _ _ _ Hle Hpow) in Hr. congruence.
    + rewrite (proof_of_work_loop_mono _ _ _ _ _ Hle Hr) in Hpow. congruence.
  - intros n0. exact Hpow.
Qed.

Lemma proof_of_work_finds_least_nonce_witness :
  (0 <= Block.nonce (Block.set_nonce 1 (candidate Demo.t4 Demo.s3 Demo.genesis)))%Z
  /\ sealed (Block.set_nonce
               (Block.nonce (Block.set_nonce 1 (candidate Demo.t4 Demo.s3 Demo.genesis)))
               (candidate Demo.t4 Demo.s3 Demo.genesis)) = true
  /\ (forall n,
        (0 <= n < Block.nonce
                    (Block.set_nonce 1 (candidate Demo.t4 Demo.s3 Demo.genesis)))%Z ->
        sealed (Block.set_nonce n (candidate Demo.t4 Demo.s3 Demo.genesis)) = false)
  /\ (forall fuel' r,
        Blockchain.proof_of_work fuel' (candidate Demo.t4 Demo.s3 Demo.genesis)
        = Some r ->
        r = ("0030c488a5ad7267e1d13dd931c82291d472a8e3389b720637bcb080df3679f2",
             Block.set_nonce 1 (candidate Demo.t4 Demo.s3 Demo.genesis)))
  /\ (forall n0,
        Blockchain.proof_of_work 5
          (Block.set_nonce n0 (candidate Demo.t4 Demo.s3 Demo.genesis))
        = Some ("0030c488a5ad7267e1d13dd931c82291d472a8e3389b720637bcb080df3679f2",
                Block.set_nonce 1 (candidate Demo.t4 Demo.s3 Demo.genesis))).
Proof.
  apply (proof_of_work_finds_least_nonce 5
           (candidate Demo.t4 Demo.s3 Demo.genesis)).
  vm_compute. reflexivity.
Defined.

(** ** The hash of a block covers its link *)

(** X11. [compute_hash()] of a block is SHA-256 of a text in which the
    [prev_hash] can be read: two blocks with the same index and nonce and
    different [prev_hash] are hashed from different texts, whatever their
    transactions and timestamps. Relinking a block changes what is hashed. *)
Theorem prev_hash_is_hashed :
  (forall block,
     Block.compute_hash block = SHA256.hexdigest (block_string block))
  /\ (forall b1 b2,
        Block.index b1 = Block.index b2 ->
        Block.nonce b1 = Block.nonce b2 ->
        Block.prev_hash b1 <> Block.prev_hash b2 ->
        block_string b1 <> block_string b2).
Proof.
  split; [apply compute_hash_block_string |].
  intros b1 b2 Hindex Hnonce Hprev Htext. apply Hprev.
  rewrite !block_string_split, Hindex, Hnonce in Htext.
  apply (inj (String.append _)) in Htext.
  by destruct (encode_basestring_inj _ _ _ _ Htext) as [-> _].
Qed.

Lemma prev_hash_is_hashed_witness :
  block_string Demo.block1
  <> block_string
       (Block.Build 1 [Demo.tx_issue; Demo.tx_transfer; Demo.tx_redeem] Demo.t4
          "0" 1 (Block.hash Demo.block1))
  /\ Block.compute_hash Demo.block1
     = SHA256.hexdigest (block_string Demo.block1).
Proof.
  split.
  - apply (proj2 prev_hash_is_hashed); [reflexivity | reflexivity |].
    discriminate.
  - apply (proj1 prev_hash_is_hashed).
Defined.
